(** * Record repositories of the week-2 assignments

    A shallow embedding of the two JSON-file-backed agents,
    [library_manager/src/library_agent.py] (class [LibraryAgent]) and
    [movie-agent/movie_agent.py] (class [MovieAgent]), and the properties
    of their load / save / add / rate / recommend / delete operations.

    Conventions of the embedding.
    - A record (a Python dict with a fixed set of keys) is a Rocq [Record];
      a key holding [None] is an [option] field.
    - [self.books] / [self.movies] is a [list]; a method takes [self] and
      returns the updated [self] next to its Python return value.
    - Everything outside the process (the files, the logger, the console,
      the clock) is the [World]; a method is a function from the world to
      an outcome and a new world. An outcome is a value or a raised
      exception, so that "does not raise" is a statement one can prove.
    - [json.dump] and [json.load] belong to the Python standard library:
      they are parameters of the development. *)

From Stdlib Require Import List String Ascii Bool ZArith QArith Qcanon.
From Stdlib Require Import Lia Permutation Sorted DecimalString.
Import ListNotations.

Local Open Scope string_scope.
Local Open Scope list_scope.

(* ------------------------------------------------------------------ *)
(** ** Python numbers *)

(** A rating is a Python [float] (or an [int], which compares the same
    way): a finite value is the rational it denotes, and the three
    non-finite floats are kept apart because the range check of
    [rate_book] has to deal with them. No arithmetic is done on ratings
    here; only comparisons and truthiness, which are exact on floats. *)
Inductive pyfloat : Type :=
  | NaN
  | NegInf
  | Fin (q : Qc)
  | PosInf.

Definition Qcleb (x y : Qc) : bool := Qle_bool x y.

(** [a <= b] on floats: every comparison with NaN is false. *)
Definition float_le (a b : pyfloat) : bool :=
  match a, b with
  | NaN, _ | _, NaN => false
  | NegInf, _ => true
  | _, PosInf => true
  | Fin x, Fin y => Qcleb x y
  | Fin _, NegInf => false
  | PosInf, _ => false
  end.

(** [a >= b] is [b <= a]. *)
Definition float_ge (a b : pyfloat) : bool := float_le b a.

(** [a > b]: [b <= a] and not [a <= b] (false as soon as one is NaN). *)
Definition float_gt (a b : pyfloat) : bool := float_le b a && negb (float_le a b).

Definition of_Z (z : Z) : pyfloat := Fin (Q2Qc (inject_Z z)).

(** [bool(x)] for a number: false exactly for zero (NaN is truthy). *)
Definition float_truthy (a : pyfloat) : bool :=
  match a with
  | Fin q => negb (Qcleb q 0 && Qcleb 0 q)
  | _ => true
  end.

Definition pyfloat_eq_dec : forall a b : pyfloat, {a = b} + {a <> b}.
Proof. decide equality. apply Qc_eq_dec. Defined.

(* ------------------------------------------------------------------ *)
(** ** Python strings *)

(** [str.strip()] and [str.lower()] on ASCII text. Python's versions also
    know the non-ASCII white space and letters of Unicode; a string here
    is a sequence of bytes and bytes above 127 are left alone. *)
Definition is_space (c : ascii) : bool :=
  let n := nat_of_ascii c in
  (Nat.eqb n 32 || (Nat.leb 9 n && Nat.leb n 13) || (Nat.leb 28 n && Nat.leb n 31))%bool.

Fixpoint lstrip (s : string) : string :=
  match s with
  | String c s' => if is_space c then lstrip s' else s
  | EmptyString => EmptyString
  end.

Fixpoint rstrip (s : string) : string :=
  match s with
  | String c s' =>
      match rstrip s' with
      | EmptyString => if is_space c then EmptyString else String c EmptyString
      | t => String c t
      end
  | EmptyString => EmptyString
  end.

Definition strip (s : string) : string := rstrip (lstrip s).

Definition lower_ascii (c : ascii) : ascii :=
  let n := nat_of_ascii c in
  if (Nat.leb 65 n && Nat.leb n 90)%bool then ascii_of_nat (n + 32) else c.

Fixpoint lower (s : string) : string :=
  match s with
  | String c s' => String (lower_ascii c) (lower s')
  | EmptyString => EmptyString
  end.

(** [needle in hay] for two strings: [needle] occurs in [hay] as a
    contiguous run of characters (the empty string occurs in every
    string). *)
Fixpoint contains (needle hay : string) : bool :=
  (String.prefix needle hay ||
   match hay with
   | String _ hay' => contains needle hay'
   | EmptyString => false
   end)%bool.

(** [s.split()] without argument: the maximal runs of characters that
    are not white space. [cur] is the run being read. *)
Fixpoint split_from (cur s : string) : list string :=
  match s with
  | EmptyString => match cur with EmptyString => [] | _ => [cur] end
  | String c s' =>
      if is_space c then
        match cur with
        | EmptyString => split_from EmptyString s'
        | _ => cur :: split_from EmptyString s'
        end
      else split_from (cur ++ String c EmptyString) s'
  end.

Definition split (s : string) : list string := split_from EmptyString s.

(** [s.split(sep)] for a separator of one character: the pieces between
    the separators, at least one piece. *)
Fixpoint split_on_from (sep : ascii) (cur s : string) : list string :=
  match s with
  | EmptyString => [cur]
  | String c s' =>
      if Ascii.eqb c sep then cur :: split_on_from sep EmptyString s'
      else split_on_from sep (cur ++ String c EmptyString) s'
  end.

Definition split_on (sep : ascii) (s : string) : list string :=
  split_on_from sep EmptyString s.

(** [l[-1]], [None] standing for the [IndexError] of an empty list. *)
Fixpoint last_item {A : Type} (l : list A) : option A :=
  match l with
  | [] => None
  | [x] => Some x
  | _ :: l' => last_item l'
  end.

Definition is_digit (c : ascii) : bool :=
  let n := nat_of_ascii c in (Nat.leb 48 n && Nat.leb n 57)%bool.

Definition digit_value (c : ascii) : Z := Z.of_nat (nat_of_ascii c - 48).

(** [s.isdigit()] on ASCII text: at least one character, all digits. *)
Fixpoint all_digits (s : string) : bool :=
  match s with
  | EmptyString => true
  | String c s' => (is_digit c && all_digits s')%bool
  end.

Definition isdigit (s : string) : bool :=
  match s with
  | EmptyString => false
  | _ => all_digits s
  end.

(** The digits of an [int] literal after its sign: digits, with single
    underscores allowed between two digits. [acc] is the value read so
    far and [after_digit] tells whether the last character was a digit. *)
Fixpoint int_digits (acc : Z) (after_digit : bool) (s : string) : option Z :=
  match s with
  | EmptyString => if after_digit then Some acc else None
  | String c s' =>
      if is_digit c then int_digits (10 * acc + digit_value c)%Z true s'
      else if (Ascii.eqb c "_" && after_digit)%bool then int_digits acc false s'
      else None
  end.

(** The interpreter refuses to convert a literal of more digits than
    this (the default of [sys.int_info.default_max_str_digits]). *)
Definition int_max_str_digits : nat := 4300.

Fixpoint count_digits (s : string) : nat :=
  match s with
  | EmptyString => O
  | String c s' => if is_digit c then S (count_digits s') else count_digits s'
  end.

Definition int_literal (d : string) : option Z :=
  if Nat.leb (count_digits d) int_max_str_digits then int_digits 0 false d
  else None.

(** The white space [int()] skips around an ASCII literal: the six
    characters of C's [isspace]. The separators 28 to 31, which
    [str.strip()] drops, are not among them. *)
Definition is_c_space (c : ascii) : bool :=
  let n := nat_of_ascii c in
  (Nat.eqb n 32 || (Nat.leb 9 n && Nat.leb n 13))%bool.

Fixpoint skip_spaces (s : string) : string :=
  match s with
  | String c s' => if is_c_space c then skip_spaces s' else s
  | EmptyString => EmptyString
  end.

Fixpoint drop_trailing_spaces (s : string) : string :=
  match s with
  | String c s' =>
      match drop_trailing_spaces s' with
      | EmptyString => if is_c_space c then EmptyString else String c EmptyString
      | t => String c t
      end
  | EmptyString => EmptyString
  end.

(** [int(s)] for a string, [None] standing for [ValueError]: white space
    around the literal is dropped, one sign is allowed, and a literal
    with too many digits is refused. The digits are the ASCII ones. *)
Definition py_int (s : string) : option Z :=
  match drop_trailing_spaces (skip_spaces s) with
  | String "+" d => int_literal d
  | String "-" d => option_map Z.opp (int_literal d)
  | d => int_literal d
  end.

(** [str(n)] for an [int]. *)
Definition str_of_Z (z : Z) : string := NilZero.string_of_int (Z.to_int z).

(* ------------------------------------------------------------------ *)
(** ** The world outside the process *)

(** What a path holds: nothing, a text, or something that exists but
    cannot be read as text (no permission, a directory, bytes that are
    not UTF-8). *)
Inductive file_state : Type :=
  | Absent
  | Content (text : string)
  | Unreadable.

Inductive level : Type := INFO | WARNING | ERROR.

(** One effect on the logger or on the console. Messages are kept as the
    format string of the source, without the values spliced in. *)
Inductive event : Type :=
  | Log (lvl : level) (msg : string)
  | Print (msg : string).

Record World : Type := mkWorld {
  fs : string -> file_state;      (* the file system, by path *)
  writable : string -> bool;      (* can the path be created/opened for writing *)
  today : string;                 (* datetime.now().strftime("%Y-%m-%d") *)
  trace : list event              (* log records and console lines, oldest first *)
}.

Definition emit (e : event) (w : World) : World :=
  mkWorld (fs w) (writable w) (today w) (trace w ++ [e]).

Definition write_file (path text : string) (w : World) : World :=
  mkWorld (fun p => if String.eqb p path then Content text else fs w p)
          (writable w) (today w) (trace w).

(** The exceptions the modelled code can meet. [OtherError] stands for
    every exception class that is neither of the first two
    (PermissionError, IsADirectoryError, UnicodeDecodeError, ...). *)
Inductive exn : Type :=
  | JSONDecodeError
  | FileNotFoundError
  | OtherError.

Inductive result (A : Type) : Type :=
  | Ok (a : A)
  | Raise (e : exn).
Arguments Ok {A} a.
Arguments Raise {A} e.

(** A computation in the world that may raise. *)
Definition M (A : Type) : Type := World -> result A * World.

Definition ret {A} (a : A) : M A := fun w => (Ok a, w).
Definition raise {A} (e : exn) : M A := fun w => (Raise e, w).
Definition bind {A B} (m : M A) (k : A -> M B) : M B :=
  fun w => match m w with
           | (Ok a, w') => k a w'
           | (Raise e, w') => (Raise e, w')
           end.
(** [try: m except: h] with [h] choosing by exception class. *)
Definition try_except {A} (m : M A) (h : exn -> M A) : M A :=
  fun w => match m w with
           | (Ok a, w') => (Ok a, w')
           | (Raise e, w') => h e w'
           end.

Declare Scope io_scope.
Delimit Scope io_scope with io.
Notation "x <- m ;; k" := (bind m (fun x => k))
  (at level 100, m at next level, right associativity) : io_scope.
Notation "m ;;; k" := (bind m (fun _ => k))
  (at level 100, right associativity) : io_scope.

Definition logger (lvl : level) (msg : string) : M unit :=
  fun w => (Ok tt, emit (Log lvl msg) w).
Definition print (msg : string) : M unit :=
  fun w => (Ok tt, emit (Print msg) w).
Definition now_date : M string := fun w => (Ok (today w), w).

(** [Path.exists()]. *)
Definition path_exists (path : string) : M bool :=
  fun w => (Ok match fs w path with Absent => false | _ => true end, w).

(** [open(path, 'r')] followed by reading the whole text. *)
Definition read_text (path : string) : M string :=
  fun w => match fs w path with
           | Absent => (Raise FileNotFoundError, w)
           | Content s => (Ok s, w)
           | Unreadable => (Raise OtherError, w)
           end.

(** [parent.mkdir(parents=True, exist_ok=True)] and [open(path, 'w')]
    followed by writing the whole text. *)
Definition write_text (path text : string) : M unit :=
  fun w => if writable w path then (Ok tt, write_file path text w)
           else (Raise OtherError, w).

(* ------------------------------------------------------------------ *)
(** ** Lists mutated in place *)

Section ListUpdates.
Context {A : Type}.

(** Position of the first element satisfying [p], as a linear scan
    ([for i, x in enumerate(l): if p(x): ...]) finds it. *)
Fixpoint find_index (p : A -> bool) (l : list A) : option nat :=
  match l with
  | [] => None
  | x :: l' => if p x then Some 0%nat else option_map S (find_index p l')
  end.

(** [l.pop(i)]: the list without its element at position [i]. *)
Fixpoint pop (i : nat) (l : list A) : list A :=
  match l, i with
  | [], _ => []
  | _ :: l', O => l'
  | x :: l', S j => x :: pop j l'
  end.

(** Mutation, through a reference to the element at position [i]. *)
Fixpoint set_at (i : nat) (f : A -> A) (l : list A) : list A :=
  match l, i with
  | [], _ => []
  | x :: l', O => f x :: l'
  | x :: l', S j => x :: set_at j f l'
  end.

(** [list.sort(key=key, reverse=True)]: Python's sort is stable, also
    with [reverse=True], so the result is the one stable insertion
    produces: an element goes in front of the first element whose key
    is not strictly greater than its own. *)
Fixpoint insert_desc (key : A -> pyfloat) (x : A) (l : list A) : list A :=
  match l with
  | [] => [x]
  | y :: l' => if float_gt (key y) (key x) then y :: insert_desc key x l'
               else x :: y :: l'
  end.

Definition sort_desc (key : A -> pyfloat) (l : list A) : list A :=
  fold_right (insert_desc key) [] l.
End ListUpdates.

(* ------------------------------------------------------------------ *)
(** ** library_agent.py *)

Module Library.

(** A book, with the keys [add_book] writes. *)
Record Book : Type := mkBook {
  id : Z;
  title : string;
  author : string;
  genre : string;
  year : option Z;
  isbn : option string;
  rating : option pyfloat;
  status : string;
  added_date : string;
  notes : string
}.


(** The attributes of a [LibraryAgent] instance (the logger is part of
    the world). *)
Record LibraryAgent : Type := mkAgent {
  storage_path : string;
  books : list Book
}.

Definition with_books (self : LibraryAgent) (bs : list Book) : LibraryAgent :=
  mkAgent (storage_path self) bs.

Definition set_rating (r : pyfloat) (b : Book) : Book :=
  mkBook (id b) (title b) (author b) (genre b) (year b) (isbn b) (Some r)
         (status b) (added_date b) (notes b).

Definition set_status (s : string) (b : Book) : Book :=
  mkBook (id b) (title b) (author b) (genre b) (year b) (isbn b) (rating b)
         s (added_date b) (notes b).

(** Statistics returned by [get_statistics]. *)
Record Statistics : Type := mkStatistics {
  total_books : nat;
  read : nat;
  reading : nat;
  unread : nat;
  average_rating : pyfloat;
  unique_genres : nat;
  unique_authors : nat
}.

Section Agent.
(** The standard library's JSON codec on a list of books: [json_dump]
    is the text [json.dump(books, file, indent=2, ensure_ascii=False)]
    writes, [json_load] is [json.load], [None] when it raises
    [JSONDecodeError]. A text that decodes to something else than a
    list of books is outside the typed model. *)
Variable json_dump : list Book -> string.
Variable json_load : string -> option (list Book).

(** Floating-point arithmetic of [get_statistics], kept abstract:
    [float_sum l] is [sum(l)], [float_div s n] is [s / n] and
    [round2 x] is [round(x, 2)]. *)
Variable float_sum : list pyfloat -> pyfloat.
Variable float_div : pyfloat -> nat -> pyfloat.
Variable round2 : pyfloat -> pyfloat.

Local Open Scope io_scope.

(** [load_books]: the body of the [try], then the two handlers. *)
Definition load_books_body (self : LibraryAgent) : M (list Book) :=
  ex <- path_exists (storage_path self) ;;
  if ex then
    text <- read_text (storage_path self) ;;
    match json_load text with
    | Some books => logger INFO "Loaded %d books from storage" ;;; ret books
    | None => raise JSONDecodeError
    end
  else
    logger INFO "No existing storage found. Starting with empty library" ;;;
    ret [].

Definition load_books (self : LibraryAgent) : M (list Book) :=
  try_except (load_books_body self)
    (fun e => match e with
              | JSONDecodeError =>
                  logger ERROR "JSON decode error: %s" ;;;
                  print "Warning: Storage file corrupted. Starting fresh." ;;;
                  ret []
              | _ =>
                  logger ERROR "Error loading books: %s" ;;;
                  ret []
              end).

(** [LibraryAgent(storage_path)]: a fresh instance reads its books from
    the backing file. *)
Definition init (path : string) : M LibraryAgent :=
  books <- load_books (mkAgent path []) ;;
  logger INFO "LibraryAgent initialized with %d books" ;;;
  ret (mkAgent path books).

Definition save_books (self : LibraryAgent) : M bool :=
  try_except
    (write_text (storage_path self) (json_dump (books self)) ;;;
     logger INFO "Saved %d books to storage" ;;;
     ret true)
    (fun _ =>
       logger ERROR "Error saving books: %s" ;;;
       print "Error saving books: {error}" ;;;
       ret false).

(** [max(book['id'] for book in self.books)] on a non-empty list. *)
Fixpoint max_id (b : Book) (l : list Book) : Z :=
  match l with
  | [] => id b
  | b' :: l' => Z.max (id b) (max_id b' l')
  end.

Definition _generate_book_id (self : LibraryAgent) : Z :=
  match books self with
  | [] => 1
  | b :: l => max_id b l + 1
  end%Z.

Definition add_book (self : LibraryAgent) (title author genre : string)
    (year : option Z) (isbn : option string) : M (Book * LibraryAgent) :=
  date <- now_date ;;
  let book := mkBook (_generate_book_id self) (strip title) (strip author)
                     (strip genre) year isbn None "unread" date "" in
  let self := with_books self (books self ++ [book]) in
  save_books self ;;;
  logger INFO "Added book: '%s' by %s" ;;;
  print "Added: '{title}' by {author}" ;;;
  ret (book, self).

Definition has_id (book_id : Z) (book : Book) : bool := Z.eqb (id book) book_id.

Definition get_book_by_id (self : LibraryAgent) (book_id : Z) : option Book :=
  find (has_id book_id) (books self).

(** The book [get_book_by_id] returns is the very object stored in the
    list: an assignment to one of its keys changes the list's first
    element with that id. *)
Definition mutate_book (self : LibraryAgent) (book_id : Z) (f : Book -> Book)
    : LibraryAgent :=
  match find_index (has_id book_id) (books self) with
  | Some i => with_books self (set_at i f (books self))
  | None => self
  end.

Definition update_status (self : LibraryAgent) (book_id : Z) (status : string)
    : M (bool * LibraryAgent) :=
  match get_book_by_id self book_id with
  | Some _ =>
      let self := mutate_book self book_id (set_status status) in
      save_books self ;;;
      logger INFO "Updated book ID %d status: %s -> %s" ;;;
      print "Updated '{title}' status to: {status}" ;;;
      ret (true, self)
  | None =>
      logger WARNING "Book ID %d not found for status update" ;;;
      print "Book ID {book_id} not found" ;;;
      ret (false, self)
  end.

Definition rate_book (self : LibraryAgent) (book_id : Z) (rating : pyfloat)
    : M (bool * LibraryAgent) :=
  if negb (float_le (of_Z 0) rating && float_le rating (of_Z 5)) then
    logger WARNING "Invalid rating attempted: %f" ;;;
    print "Rating must be between 0 and 5" ;;;
    ret (false, self)
  else
    match get_book_by_id self book_id with
    | Some _ =>
        let self := mutate_book self book_id (set_rating rating) in
        save_books self ;;;
        logger INFO "Rated book ID %d: %f stars" ;;;
        print "Rated '{title}': {rating}" ;;;
        ret (true, self)
    | None =>
        logger WARNING "Book ID %d not found for rating" ;;;
        print "Book ID {book_id} not found" ;;;
        ret (false, self)
    end.

(** [book.get("rating")] used as a condition: a rating that is [None]
    or zero is falsy. *)
Definition rating_truthy (book : Book) : bool :=
  match rating book with
  | Some r => float_truthy r
  | None => false
  end.

(** The condition of the comprehension in [get_recommendations]. *)
Definition recommended (genre_filter : option string) (min_rating : pyfloat)
    (book : Book) : bool :=
  match rating book with
  | Some r =>
      float_truthy r && float_ge r min_rating &&
      match genre_filter with
      | None => true
      | Some g => String.eqb (lower (genre book)) (lower g)
      end
  | None => false
  end.

(** [x.get("rating", 0)], the sort key. *)
Definition rating_key (book : Book) : pyfloat :=
  match rating book with
  | Some r => r
  | None => of_Z 0
  end.

Definition get_recommendations (self : LibraryAgent)
    (genre_filter : option string) (min_rating : pyfloat) : M (list Book) :=
  let recommendations := filter (recommended genre_filter min_rating) (books self) in
  let recommendations := sort_desc rating_key recommendations in
  logger INFO "Generated %d recommendations (genre: %s, min_rating: %f)" ;;;
  ret recommendations.

Definition count_status (s : string) (l : list Book) : nat :=
  List.length (filter (fun book => String.eqb (status book) s) l).

(** [rated_books] of [get_statistics]. *)
Definition rated_books (self : LibraryAgent) : list Book :=
  filter rating_truthy (books self).

Definition get_statistics (self : LibraryAgent) : Statistics :=
  let total := List.length (books self) in
  let rated := rated_books self in
  let avg_rating :=
    match rated with
    | [] => of_Z 0
    | _ => float_div (float_sum (map rating_key rated)) (List.length rated)
    end in
  let genres := nodup string_dec (map genre (books self)) in
  let authors := nodup string_dec (map author (books self)) in
  mkStatistics total
    (count_status "read" (books self))
    (count_status "reading" (books self))
    (count_status "unread" (books self))
    (round2 avg_rating)
    (List.length genres) (List.length authors).

Definition delete_book (self : LibraryAgent) (book_id : Z)
    : M (bool * LibraryAgent) :=
  match find_index (has_id book_id) (books self) with
  | Some i =>
      let self := with_books self (pop i (books self)) in
      save_books self ;;;
      logger INFO "Deleted book ID %d: '%s'" ;;;
      print "Deleted: '{title}'" ;;;
      ret (true, self)
  | None =>
      logger WARNING "Book ID %d not found for deletion" ;;;
      print "Book ID {book_id} not found" ;;;
      ret (false, self)
  end.

(** [list_books]: with ["all"] the collection itself, without a log
    record; otherwise the books whose status is the filter. *)
Definition list_books (self : LibraryAgent) (filter_by : string) : M (list Book) :=
  if String.eqb filter_by "all" then ret (books self)
  else
    let filtered :=
      filter (fun book => String.eqb (status book) filter_by) (books self) in
    logger INFO "Listed %d books with filter: %s" ;;;
    ret filtered.

(** A value stored under a key of a book. *)
Inductive pyvalue : Type :=
  | PyNone
  | PyInt (z : Z)
  | PyFloat (x : pyfloat)
  | PyStr (s : string).

Definition of_option {A : Type} (f : A -> pyvalue) (o : option A) : pyvalue :=
  match o with
  | Some a => f a
  | None => PyNone
  end.

(** [book.get(key)]: the record seen as the dict it is, [None] for a key
    the dict does not have. *)
Definition book_get (key : string) (book : Book) : option pyvalue :=
  if String.eqb key "id" then Some (PyInt (id book))
  else if String.eqb key "title" then Some (PyStr (title book))
  else if String.eqb key "author" then Some (PyStr (author book))
  else if String.eqb key "genre" then Some (PyStr (genre book))
  else if String.eqb key "year" then Some (of_option PyInt (year book))
  else if String.eqb key "isbn" then Some (of_option PyStr (isbn book))
  else if String.eqb key "rating" then Some (of_option PyFloat (rating book))
  else if String.eqb key "status" then Some (PyStr (status book))
  else if String.eqb key "added_date" then Some (PyStr (added_date book))
  else if String.eqb key "notes" then Some (PyStr (notes book))
  else None.

(** [str(x)] of a float is the interpreter's shortest round-trip
    rendering: a parameter. *)
Variable float_str : pyfloat -> string.

Definition py_str (v : pyvalue) : string :=
  match v with
  | PyNone => "None"
  | PyInt z => str_of_Z z
  | PyFloat x => float_str x
  | PyStr s => s
  end.

(** The text [search_books] looks into:
    [str(book.get(search_by, "")).lower()]. *)
Definition search_text (search_by : string) (book : Book) : string :=
  lower (py_str (match book_get search_by book with
                 | Some v => v
                 | None => PyStr ""
                 end)).

Definition search_books (self : LibraryAgent) (query search_by : string)
    : M (list Book) :=
  let query_lower := strip (lower query) in
  let results :=
    filter (fun book => contains query_lower (search_text search_by book))
           (books self) in
  logger INFO "Search '%s' in %s returned %d results" ;;;
  ret results.

(** The dict built by [organize_by_genre] and [organize_by_author], as
    the list of its items in insertion order. [group_append] is
    [if k not in organized: organized[k] = []] followed by
    [organized[k].append(book)]. *)
Fixpoint group_append (k : string) (book : Book)
    (organized : list (string * list Book)) : list (string * list Book) :=
  match organized with
  | [] => [(k, [book])]
  | (k', group) :: rest =>
      if String.eqb k' k then (k', group ++ [book]) :: rest
      else (k', group) :: group_append k book rest
  end.

Definition organize_by (key : Book -> string) (l : list Book)
    : list (string * list Book) :=
  fold_left (fun organized book => group_append (key book) book organized) l [].

Definition organize_by_genre (self : LibraryAgent)
    : M (list (string * list Book)) :=
  let organized := organize_by genre (books self) in
  logger INFO "Organized books into %d genres" ;;;
  ret organized.

Definition organize_by_author (self : LibraryAgent)
    : M (list (string * list Book)) :=
  let organized := organize_by author (books self) in
  logger INFO "Organized books by %d authors" ;;;
  ret organized.

(** What [requests.get(url, timeout=5)] and [response.json()] give for
    the Open Library endpoint: a timeout, any other exception (no
    connection, a body that is not JSON), or a status code with the
    entry of the body under the key [ISBN:<isbn>], if it has one. *)
Record BookData : Type := mkBookData {
  data_title : option string;
  data_authors : list string;            (* the "name" of each author *)
  data_publish_date : option string;
  data_publishers : list string;         (* the "name" of each publisher *)
  data_number_of_pages : option Z;
  data_cover_medium : option string
}.

Inductive http_outcome : Type :=
  | HttpTimeout
  | HttpFailure
  | HttpReply (status_code : Z) (entry : option BookData).

(** The remote service, by URL: a parameter. *)
Variable openlibrary : string -> http_outcome.

(** The dict [fetch_book_details] returns; [None] in
    [details_number_of_pages] is the default ["Unknown"]. *)
Record Details : Type := mkDetails {
  details_title : string;
  details_authors : list string;
  details_publish_date : string;
  details_publishers : list string;
  details_number_of_pages : option Z;
  details_cover : option string
}.

Definition or_unknown (o : option string) : string :=
  match o with
  | Some s => s
  | None => "Unknown"
  end.

Definition fetch_book_details (isbn : string) : M (option Details) :=
  let url := ("https://openlibrary.org/api/books?" ++
              "bibkeys=ISBN:" ++ isbn ++ "&format=json&jscmd=data")%string in
  match openlibrary url with
  | HttpReply status_code entry =>
      match (if Z.eqb status_code 200 then entry else None) with
      | Some book_data =>
          logger INFO "Fetched book details for ISBN: %s" ;;;
          ret (Some (mkDetails (or_unknown (data_title book_data))
                               (data_authors book_data)
                               (or_unknown (data_publish_date book_data))
                               (data_publishers book_data)
                               (data_number_of_pages book_data)
                               (data_cover_medium book_data)))
      | None =>
          logger WARNING "No data found for ISBN: %s" ;;;
          ret None
      end
  | HttpTimeout =>
      logger ERROR "API timeout for ISBN: %s" ;;;
      print "API request timed out" ;;;
      ret None
  | HttpFailure =>
      logger ERROR "Error fetching book details: %s" ;;;
      print "Error fetching book details: {error}" ;;;
      ret None
  end.

(** The year [add_book_from_api] extracts:
    [int(details["publish_date"].split()[-1])], [None] when that raises
    [ValueError] or [IndexError]. *)
Definition publish_year (publish_date : string) : option Z :=
  match last_item (split publish_date) with
  | Some token => py_int token
  | None => None
  end.

Definition add_book_from_api (self : LibraryAgent) (isbn : string)
    : M (option Book * LibraryAgent) :=
  print "Fetching details for ISBN: {isbn}..." ;;;
  details <- fetch_book_details isbn ;;
  match details with
  | Some details =>
      let author :=
        match details_authors details with
        | name :: _ => name
        | [] => "Unknown"
        end in
      let title := details_title details in
      let year := publish_year (details_publish_date details) in
      added <- add_book self title author "Unknown" year (Some isbn) ;;
      ret (Some (fst added), snd added)
  | None =>
      logger WARNING "Could not fetch details for ISBN: %s" ;;;
      print "Could not fetch details for ISBN: {isbn}" ;;;
      ret (None, self)
  end.

End Agent.
End Library.

(* ------------------------------------------------------------------ *)
(** ** movie_agent.py *)

Module Movie.

(** A movie, with the keys [add_movie] writes. *)
Record Movie : Type := mkMovie {
  title : string;
  genre : string;
  rating : pyfloat;
  year : Z;
  watched : bool
}.

Definition Movie_eq_dec : forall a b : Movie, {a = b} + {a <> b}.
Proof.
  decide equality; try apply string_dec; try apply Z.eq_dec;
    try apply Bool.bool_dec; apply pyfloat_eq_dec.
Defined.

(** The attributes of a [MovieAgent] instance that the modelled methods
    read. *)
Record MovieAgent : Type := mkAgent {
  data_path : string;
  use_session_state : bool;
  movies : list Movie
}.

Definition with_movies (self : MovieAgent) (ms : list Movie) : MovieAgent :=
  mkAgent (data_path self) (use_session_state self) ms.

Definition set_watched (m : Movie) : Movie :=
  mkMovie (title m) (genre m) (rating m) (year m) true.

Section Agent.
(** The standard library's JSON codec on a list of movies. *)
Variable json_dump : list Movie -> string.
Variable json_load : string -> option (list Movie).

Local Open Scope io_scope.

(** [load_movies]: only [JSONDecodeError] and [FileNotFoundError] are
    handled, every other exception leaves the method. *)
Definition load_movies (self : MovieAgent) : M (list Movie) :=
  try_except
    (text <- read_text (data_path self) ;;
     match json_load text with
     | Some movies => ret movies
     | None => raise JSONDecodeError
     end)
    (fun e => match e with
              | JSONDecodeError | FileNotFoundError => ret []
              | _ => raise e
              end).

(** [save_movies]: no handler, a failing write raises. *)
Definition save_movies (self : MovieAgent) : M unit :=
  if negb (use_session_state self) then
    write_text (data_path self) (json_dump (movies self))
  else ret tt.

(** A method that assigns to [self.movies] before it may raise returns
    the instance next to the outcome. In [add_movie] the arguments are
    already a float and an int, so [float(rating)] and [int(year)] leave
    them as they are. *)
Definition add_movie (self : MovieAgent) (title genre : string)
    (rating : pyfloat) (year : Z) (watched : bool)
    : World -> result Movie * MovieAgent * World :=
  fun w =>
    let movie := mkMovie title genre rating year watched in
    let self := with_movies self (movies self ++ [movie]) in
    match save_movies self w with
    | (Ok _, w') => (Ok movie, self, w')
    | (Raise e, w') => (Raise e, self, w')
    end.

Definition list_movies (self : MovieAgent) : list Movie := movies self.

Definition recommend (self : MovieAgent) (min_rating : pyfloat) : list Movie :=
  filter (fun movie => float_ge (rating movie) min_rating) (movies self).

Definition same_title (t : string) (movie : Movie) : bool :=
  String.eqb (lower (title movie)) (lower t).

Definition mark_as_watched (self : MovieAgent) (title : string)
    : World -> result bool * MovieAgent * World :=
  fun w =>
    match find_index (same_title title) (movies self) with
    | Some i =>
        let self := with_movies self (set_at i set_watched (movies self)) in
        match save_movies self w with
        | (Ok _, w') => (Ok true, self, w')
        | (Raise e, w') => (Raise e, self, w')
        end
    | None => (Ok false, self, w)
    end.

Definition delete_movie (self : MovieAgent) (title : string)
    : World -> result bool * MovieAgent * World :=
  fun w =>
    let original_length := List.length (movies self) in
    let self :=
      with_movies self
        (filter (fun movie => negb (same_title title movie)) (movies self)) in
    if Nat.ltb (List.length (movies self)) original_length then
      match save_movies self w with
      | (Ok _, w') => (Ok true, self, w')
      | (Raise e, w') => (Raise e, self, w')
      end
    else (Ok false, self, w).

(** [_ensure_data_directory]: the parent directory is made and, when
    the file is not there, it is created holding ["[]"]; nothing is
    handled. *)
Definition _ensure_data_directory (self : MovieAgent) : M unit :=
  ex <- path_exists (data_path self) ;;
  if negb ex then write_text (data_path self) "[]" else ret tt.

(** [MovieAgent(data_path, use_session_state=..., session_movies=...)]. *)
Definition init (data_path : string) (use_session_state : bool)
    (session_movies : option (list Movie)) : M MovieAgent :=
  match (if use_session_state then session_movies else None) with
  | Some session_movies => ret (mkAgent data_path use_session_state session_movies)
  | None =>
      let self := mkAgent data_path use_session_state [] in
      _ensure_data_directory self ;;;
      movies <- load_movies self ;;
      ret (mkAgent data_path use_session_state movies)
  end.

Definition search_by_title (self : MovieAgent) (title : string) : list Movie :=
  filter (fun movie => contains (lower title) (lower (Movie.title movie)))
         (movies self).

Definition search_by_genre (self : MovieAgent) (genre : string) : list Movie :=
  filter (fun movie => String.eqb (lower (Movie.genre movie)) (lower genre))
         (movies self).

(** [sorted(...)] on strings: ascending in the order of their characters
    (the order of the code points, which is the order of the bytes). *)
Fixpoint insert_sorted (x : string) (l : list string) : list string :=
  match l with
  | [] => [x]
  | y :: l' => if String.leb x y then x :: y :: l' else y :: insert_sorted x l'
  end.

Definition sorted (l : list string) : list string :=
  fold_right insert_sorted [] l.

(** [get_all_genres]: the set of the genres, as a sorted list. The order
    in which the set gives its elements does not show after sorting. *)
Definition get_all_genres (self : MovieAgent) : list string :=
  let genres := nodup string_dec (map Movie.genre (movies self)) in
  sorted genres.

(** What [fetch_ghibli_movie] and [fetch_omdb_movie] return. *)
Record MovieData : Type := mkMovieData {
  data_title : string;
  data_genre : string;
  data_rating : pyfloat;
  data_year : Z;
  data_watched : bool;
  data_description : string;
  data_director : string;
  data_source : string
}.

(** What [requests.get] followed by [response.json()] comes to: a
    [RequestException] (no connection, a timeout, a body that is not
    JSON), or a status code with the decoded body. A body is typed by
    the schema of its service; a body of another shape is outside the
    model. *)
Inductive response (Body : Type) : Type :=
  | RequestException
  | Reply (status_code : Z) (body : Body).
Arguments RequestException {Body}.
Arguments Reply {Body} status_code body.

(** One film of the list the Studio Ghibli service sends; the score and
    the year come as text. *)
Record Film : Type := mkFilm {
  film_title : string;
  film_rt_score : string;
  film_release_date : string;
  film_description : option string;
  film_director : option string
}.

(** The object OMDB sends; each key may be missing. *)
Record OmdbData : Type := mkOmdbData {
  omdb_Response : option string;
  omdb_imdbRating : option string;
  omdb_Title : option string;
  omdb_Genre : option string;
  omdb_Year : option string;
  omdb_Plot : option string;
  omdb_Director : option string
}.

(** [d.get(key, default)]. *)
Definition get_or (o : option string) (default : string) : string :=
  match o with
  | Some s => s
  | None => default
  end.

(** [self.omdb_api_key], given to [__init__] and never assigned again. *)
Variable omdb_api_key : option string.
(** The two services, [float(s)] on a string ([None] for [ValueError])
    and the arithmetic of floats: parameters. *)
Variable ghibli_api : response (list Film).
Variable omdb_api : string -> string -> response OmdbData.
Variable py_float : string -> option pyfloat.
Variable float_sum : list pyfloat -> pyfloat.
Variable float_div : pyfloat -> nat -> pyfloat.
Variable round2 : pyfloat -> pyfloat.

(** The entry made of the film that matched; a [ValueError] of
    [float()] or [int()] is not handled ([OtherError] here). *)
Definition ghibli_entry (movie : Film) : result (option MovieData) :=
  match py_float (film_rt_score movie) with
  | None => Raise OtherError
  | Some rt_score =>
      match py_int (film_release_date movie) with
      | None => Raise OtherError
      | Some year =>
          Ok (Some (mkMovieData (film_title movie) "Animation"
                                (float_div rt_score 10) year false
                                (get_or (film_description movie) "")
                                (get_or (film_director movie) "")
                                "Studio Ghibli"))
      end
  end.

Fixpoint ghibli_scan (title : string) (movies : list Film)
    : result (option MovieData) :=
  match movies with
  | [] => Ok None
  | movie :: movies' =>
      if String.eqb (lower (film_title movie)) (lower title)
      then ghibli_entry movie
      else ghibli_scan title movies'
  end.

Definition fetch_ghibli_movie (title : string) : result (option MovieData) :=
  match ghibli_api with
  | RequestException => Ok None
  | Reply status_code movies =>
      if negb (Z.eqb status_code 200) then Ok None
      else ghibli_scan title movies
  end.

(** [fetch_omdb_movie]: the status code is not looked at, and the
    [ValueError] of a rating or a year that does not parse is handled. *)
Definition fetch_omdb_movie (title : string) : result (option MovieData) :=
  match omdb_api_key with
  | None | Some EmptyString => Ok None
  | Some key =>
      match omdb_api title key with
      | RequestException => Ok None
      | Reply _ data =>
          if match omdb_Response data with
             | Some answer => String.eqb answer "True"
             | None => false
             end
          then
              let imdb_rating := get_or (omdb_imdbRating data) "N/A" in
              match (if negb (String.eqb imdb_rating "N/A")
                     then py_float imdb_rating else Some (of_Z 7)) with
              | None => Ok None
              | Some rating =>
                  match py_int (substring 0 4 (get_or (omdb_Year data) "2000")) with
                  | None => Ok None
                  | Some year =>
                      Ok (Some (mkMovieData
                                  (get_or (omdb_Title data) title)
                                  (strip (hd "" (split_on ","
                                     (get_or (omdb_Genre data) "Unknown"))))
                                  rating year false
                                  (get_or (omdb_Plot data) "")
                                  (get_or (omdb_Director data) "")
                                  "OMDB"))
                  end
              end
          else Ok None
      end
  end.

Definition fetch_movie_from_api (title : string) : result (option MovieData) :=
  match fetch_ghibli_movie title with
  | Raise e => Raise e
  | Ok (Some movie) => Ok (Some movie)
  | Ok None =>
      match fetch_omdb_movie title with
      | Raise e => Raise e
      | Ok (Some movie) => Ok (Some movie)
      | Ok None => Ok None
      end
  end.

Definition add_movie_from_api (self : MovieAgent) (title : string)
    : World -> result (option MovieData) * MovieAgent * World :=
  fun w =>
    match fetch_movie_from_api title with
    | Raise e => (Raise e, self, w)
    | Ok (Some movie_data) =>
        let clean_data :=
          mkMovie (data_title movie_data) (data_genre movie_data)
                  (data_rating movie_data) (data_year movie_data)
                  (data_watched movie_data) in
        let self := with_movies self (movies self ++ [clean_data]) in
        match save_movies self w with
        | (Ok _, w') => (Ok (Some movie_data), self, w')
        | (Raise e, w') => (Raise e, self, w')
        end
    | Ok None => (Ok None, self, w)
    end.

(** Statistics returned by [get_statistics]; the mean is computed in
    floating point, by the parameters below. *)
Record Statistics : Type := mkStatistics {
  stat_total : nat;
  stat_watched : nat;
  stat_unwatched : nat;
  stat_avg_rating : pyfloat;
  stat_genres : nat
}.

Definition get_statistics (self : MovieAgent) : Statistics :=
  match movies self with
  | [] => mkStatistics 0 0 0 (of_Z 0) 0
  | _ =>
      let total := List.length (movies self) in
      let watched := List.length (filter Movie.watched (movies self)) in
      let avg_rating :=
        if Nat.ltb 0 total
        then float_div (float_sum (map Movie.rating (movies self))) total
        else of_Z 0 in
      mkStatistics total watched (total - watched) (round2 avg_rating)
                   (List.length (get_all_genres self))
  end.

End Agent.

Arguments RequestException {Body}.
Arguments Reply {Body} status_code body.
End Movie.

(* ------------------------------------------------------------------ *)
(** ** library_manager/main.py *)

Module Main.

(** The console program: the lines still to be read from standard
    input, the agent, and the world. A line written to the console is
    recorded by its text without the pictographs, the line feeds and the
    values of the source; no property below depends on what a line
    says. *)
Record Session : Type := mkSession {
  stdin : list string;
  library : Library.LibraryAgent;
  outside : World
}.

(** A computation of the console program. *)
Definition Console (A : Type) : Type := Session -> result A * Session.

Definition cret {A} (a : A) : Console A := fun s => (Ok a, s).
Definition cbind {A B} (m : Console A) (k : A -> Console B) : Console B :=
  fun s => match m s with
           | (Ok a, s') => k a s'
           | (Raise e, s') => (Raise e, s')
           end.

Declare Scope console_scope.
Delimit Scope console_scope with console.
Notation "x <- m ;; k" := (cbind m (fun x => k))
  (at level 100, m at next level, right associativity) : console_scope.
Notation "m ;;; k" := (cbind m (fun _ => k))
  (at level 100, right associativity) : console_scope.

(** An effect on the world alone. *)
Definition lift {A} (m : M A) : Console A :=
  fun s => match m (outside s) with
           | (r, w) => (r, mkSession (stdin s) (library s) w)
           end.

Definition say (msg : string) : Console unit := lift (print msg).

(** [input(prompt)]: the prompt goes to the console and the next line is
    read; at the end of the input [EOFError] is raised. *)
Definition input (prompt : string) : Console string :=
  fun s =>
    let w := emit (Print prompt) (outside s) in
    match stdin s with
    | line :: rest => (Ok line, mkSession rest (library s) w)
    | [] => (Raise OtherError, mkSession [] (library s) w)
    end.

(** A method of the agent that may change it, and one that only reads. *)
Definition update {A} (method : Library.LibraryAgent -> M (A * Library.LibraryAgent))
    : Console A :=
  fun s => match method (library s) (outside s) with
           | (Ok (a, self), w) => (Ok a, mkSession (stdin s) self w)
           | (Raise e, w) => (Raise e, mkSession (stdin s) (library s) w)
           end.

Definition query {A} (method : Library.LibraryAgent -> M A) : Console A :=
  fun s => match method (library s) (outside s) with
           | (r, w) => (r, mkSession (stdin s) (library s) w)
           end.

(** [int(x)] outside any handler of [ValueError]. *)
Definition int_or_raise (x : string) : Console (option Z) :=
  fun s => match py_int x with
           | Some n => (Ok (Some n), s)
           | None => (Raise OtherError, s)
           end.

(** [x or default] for a string. *)
Definition or_default (x default : string) : string :=
  match x with
  | EmptyString => default
  | _ => x
  end.

Definition nonempty (x : string) : bool :=
  match x with
  | EmptyString => false
  | _ => true
  end.

Section Program.
Variable json_dump : list Library.Book -> string.
Variable float_sum : list pyfloat -> pyfloat.
Variable float_div : pyfloat -> nat -> pyfloat.
Variable round2 : pyfloat -> pyfloat.
Variable float_str : pyfloat -> string.
Variable openlibrary : string -> Library.http_outcome.

(** [float(s)] for a string, [None] standing for [ValueError]: a
    parameter. *)
Variable py_float : string -> option pyfloat.

Local Open Scope console_scope.

Fixpoint say_rows (books : list Library.Book) : Console unit :=
  match books with
  | [] => cret tt
  | _ :: books' => say "{id} {title} {author} {genre} {status} {rating}" ;;; say_rows books'
  end.

Definition display_books_table (books : list Library.Book) : Console unit :=
  match books with
  | [] => say "No books found."
  | _ =>
      say "{rule}" ;;;
      say "ID Title Author Genre Status Rating" ;;;
      say "{rule}" ;;;
      say_rows books ;;;
      say "{rule}" ;;;
      say "Total: {n} book(s)"
  end.

Definition display_menu : Console unit :=
  say "{rule}" ;;;
  say "MENU:" ;;;
  say "1.  Add Book (Manual)" ;;;
  say "2.  Add Book (From ISBN)" ;;;
  say "3.  List All Books" ;;;
  say "4.  Search Books" ;;;
  say "5.  Update Reading Status" ;;;
  say "6.  Rate a Book" ;;;
  say "7.  Get Recommendations" ;;;
  say "8.  Organize by Genre" ;;;
  say "9.  Organize by Author" ;;;
  say "10. View Statistics" ;;;
  say "11. Delete Book" ;;;
  say "0.  Exit" ;;;
  say "{rule}".

Definition handle_add_book_manual : Console unit :=
  say "ADD NEW BOOK" ;;;
  title <- input "Title: " ;;
  let title := strip title in
  if negb (nonempty title) then say "Title cannot be empty"
  else
    author <- input "Author: " ;;
    let author := strip author in
    if negb (nonempty author) then say "Author cannot be empty"
    else
      genre <- input "Genre: " ;;
      let genre := or_default (strip genre) "Unknown" in
      year_input <- input "Year (optional): " ;;
      let year_input := strip year_input in
      year <- (if isdigit year_input then int_or_raise year_input
               else cret None) ;;
      isbn <- input "ISBN (optional): " ;;
      let isbn := if nonempty (strip isbn) then Some (strip isbn) else None in
      update (fun self => Library.add_book json_dump self title author genre year isbn) ;;;
      cret tt.

Definition handle_add_book_isbn : Console unit :=
  say "ADD BOOK FROM ISBN" ;;;
  isbn <- input "Enter ISBN: " ;;
  let isbn := strip isbn in
  if nonempty isbn then
    update (fun self => Library.add_book_from_api json_dump openlibrary self isbn) ;;;
    cret tt
  else say "ISBN cannot be empty".

Definition handle_list_books : Console unit :=
  say "ALL BOOKS" ;;;
  filter_choice <- input "Filter by (all/read/reading/unread) [all]: " ;;
  let filter_choice := or_default (strip filter_choice) "all" in
  books <- query (fun self => Library.list_books self filter_choice) ;;
  display_books_table books.

Definition handle_search_books : Console unit :=
  say "SEARCH BOOKS" ;;;
  search_by <- input "Search by (title/author/genre) [title]: " ;;
  let search_by := or_default (strip search_by) "title" in
  query_text <- input "Enter {search_by}: " ;;
  let query_text := strip query_text in
  if nonempty query_text then
    results <- query (fun self => Library.search_books float_str self query_text search_by) ;;
    display_books_table results
  else say "Search query cannot be empty".

Definition valid_status (status : string) : bool :=
  (String.eqb status "unread" || String.eqb status "reading" ||
   String.eqb status "read")%bool.

Definition handle_update_status : Console unit :=
  say "UPDATE READING STATUS" ;;;
  book_id <- input "Enter Book ID: " ;;
  match py_int (strip book_id) with
  | Some book_id =>
      status <- input "Status (unread/reading/read): " ;;
      let status := strip status in
      if valid_status status then
        update (fun self => Library.update_status json_dump self book_id status) ;;;
        cret tt
      else say "Invalid status. Use: unread, reading, or read"
  | None => say "Invalid Book ID"
  end.

Definition handle_rate_book : Console unit :=
  say "RATE A BOOK" ;;;
  book_id <- input "Enter Book ID: " ;;
  match py_int (strip book_id) with
  | Some book_id =>
      rating <- input "Rating (0-5): " ;;
      match py_float (strip rating) with
      | Some rating =>
          update (fun self => Library.rate_book json_dump self book_id rating) ;;;
          cret tt
      | None => say "Invalid input"
      end
  | None => say "Invalid input"
  end.

Definition handle_recommendations : Console unit :=
  say "RECOMMENDATIONS" ;;;
  genre <- input "Genre (optional): " ;;
  let genre := if nonempty (strip genre) then Some (strip genre) else None in
  min_rating_input <- input "Minimum rating [4.0]: " ;;
  let min_rating_input := strip min_rating_input in
  match (if nonempty min_rating_input then py_float min_rating_input
         else Some (of_Z 4)) with
  | Some min_rating =>
      recommendations <-
        query (fun self => Library.get_recommendations self genre min_rating) ;;
      display_books_table recommendations
  | None => say "Invalid rating value"
  end.

Fixpoint say_groups (organized : list (string * list Library.Book)) : Console unit :=
  match organized with
  | [] => cret tt
  | (_, books) :: rest =>
      say "{key} ({n} books)" ;;;
      display_books_table books ;;;
      say_groups rest
  end.

Definition handle_organize_by_genre : Console unit :=
  say "BOOKS BY GENRE" ;;;
  organized <- query Library.organize_by_genre ;;
  say_groups organized.

Definition handle_organize_by_author : Console unit :=
  say "BOOKS BY AUTHOR" ;;;
  organized <- query Library.organize_by_author ;;
  say_groups organized.

Definition handle_view_statistics : Console unit :=
  say "LIBRARY STATISTICS" ;;;
  stats <- query (fun self => ret (Library.get_statistics float_sum float_div round2 self)) ;;
  say "{rule}" ;;;
  say "Total Books: {total_books}" ;;;
  say "Read: {read}" ;;;
  say "Currently Reading: {reading}" ;;;
  say "Unread: {unread}" ;;;
  say "Average Rating: {average_rating}" ;;;
  say "Unique Genres: {unique_genres}" ;;;
  say "Unique Authors: {unique_authors}" ;;;
  say "{rule}".

Definition handle_delete_book : Console unit :=
  say "DELETE BOOK" ;;;
  book_id <- input "Enter Book ID: " ;;
  match py_int (strip book_id) with
  | Some book_id =>
      update (fun self => Library.delete_book json_dump self book_id) ;;;
      cret tt
  | None => say "Invalid Book ID"
  end.

(** The branch of the menu for a choice other than ["0"]. *)
Definition dispatch (choice : string) : Console unit :=
  if String.eqb choice "1" then handle_add_book_manual
  else if String.eqb choice "2" then handle_add_book_isbn
  else if String.eqb choice "3" then handle_list_books
  else if String.eqb choice "4" then handle_search_books
  else if String.eqb choice "5" then handle_update_status
  else if String.eqb choice "6" then handle_rate_book
  else if String.eqb choice "7" then handle_recommendations
  else if String.eqb choice "8" then handle_organize_by_genre
  else if String.eqb choice "9" then handle_organize_by_author
  else if String.eqb choice "10" then handle_view_statistics
  else if String.eqb choice "11" then handle_delete_book
  else say "Invalid choice. Please try again.".

(** One turn of the [while True] loop: [true] when the loop goes on.
    The prompt for the choice is outside the [try]; whatever a handler
    raises is logged and the loop goes on. *)
Definition turn : Console bool :=
  display_menu ;;;
  choice <- input "Enter your choice: " ;;
  let choice := strip choice in
  if String.eqb choice "0" then
    say "Thank you for using Mini Library Manager!" ;;;
    say "Your library has been saved." ;;;
    lift (logger INFO "Application closed by user") ;;;
    cret false
  else
    fun s =>
      match dispatch choice s with
      | (Ok _, s') => (Ok true, s')
      | (Raise _, s') =>
          (lift (logger ERROR "Error in main loop: %s") ;;;
           say "An error occurred: {error}" ;;;
           cret true) s'
      end.

(** The [while True] loop of [main], for at most [fuel] turns; [None]
    when the turns ran out. *)
Fixpoint main_loop (fuel : nat) (s : Session) : option (result unit * Session) :=
  match fuel with
  | O => None
  | S fuel' =>
      match turn s with
      | (Ok true, s') => main_loop fuel' s'
      | (Ok false, s') => Some (Ok tt, s')
      | (Raise e, s') => Some (Raise e, s')
      end
  end.

End Program.
End Main.

(* ------------------------------------------------------------------ *)
(** ** movie-agent/cli.py *)

Module Cli.

(** The command-line program of the movie agent: the lines still to be
    read, the agent, and the world. Console lines are recorded as in
    [Main]. Nothing in this program handles an exception. *)
Record Session : Type := mkSession {
  stdin : list string;
  agent : Movie.MovieAgent;
  outside : World
}.

Definition Console (A : Type) : Type := Session -> result A * Session.

Definition cret {A} (a : A) : Console A := fun s => (Ok a, s).
Definition cbind {A B} (m : Console A) (k : A -> Console B) : Console B :=
  fun s => match m s with
           | (Ok a, s') => k a s'
           | (Raise e, s') => (Raise e, s')
           end.

Declare Scope cli_scope.
Delimit Scope cli_scope with cli.
Notation "x <- m ;; k" := (cbind m (fun x => k))
  (at level 100, m at next level, right associativity) : cli_scope.
Notation "m ;;; k" := (cbind m (fun _ => k))
  (at level 100, right associativity) : cli_scope.

Definition say (msg : string) : Console unit :=
  fun s => (Ok tt, mkSession (stdin s) (agent s) (emit (Print msg) (outside s))).

(** [input(prompt)], with [EOFError] at the end of the input. *)
Definition input (prompt : string) : Console string :=
  fun s =>
    let w := emit (Print prompt) (outside s) in
    match stdin s with
    | line :: rest => (Ok line, mkSession rest (agent s) w)
    | [] => (Raise OtherError, mkSession [] (agent s) w)
    end.

(** A method that may change the agent (the agent is as the method left
    it, also when it raised), and one that only reads it. *)
Definition update {A}
    (method : Movie.MovieAgent -> World -> result A * Movie.MovieAgent * World)
    : Console A :=
  fun s => match method (agent s) (outside s) with
           | (r, self, w) => (r, mkSession (stdin s) self w)
           end.

Definition query {A} (method : Movie.MovieAgent -> A) : Console A :=
  fun s => (Ok (method (agent s)), s).

(** A value or the exception of a computation that has no effect. *)
Definition of_result {A} (r : result A) : Console A := fun s => (r, s).

(** [int(x)]; the [ValueError] is not handled. *)
Definition int_or_raise (x : string) : Console Z :=
  of_result match py_int x with
            | Some n => Ok n
            | None => Raise OtherError
            end.

Section Program.
Variable json_dump : list Movie.Movie -> string.
Variable json_load : string -> option (list Movie.Movie).
(** [os.getenv("OMDB_API_KEY")]. *)
Variable omdb_api_key : option string.
Variable ghibli_api : Movie.response (list Movie.Film).
Variable omdb_api : string -> string -> Movie.response Movie.OmdbData.
Variable py_float : string -> option pyfloat.
Variable float_sum : list pyfloat -> pyfloat.
Variable float_div : pyfloat -> nat -> pyfloat.
Variable round2 : pyfloat -> pyfloat.

Local Open Scope cli_scope.

(** [float(x)]; the [ValueError] is not handled. *)
Definition float_or_raise (x : string) : Console pyfloat :=
  of_result match py_float x with
            | Some r => Ok r
            | None => Raise OtherError
            end.

Definition print_header (title : string) : Console unit :=
  say "{rule}" ;;;
  say title ;;;
  say "{rule}".

Definition print_movie (movie : Movie.Movie) : Console unit :=
  say "{index}. {title} ({year})" ;;;
  say "Genre: {genre} | Rating: {rating}/10 | {status}".

Fixpoint print_each (movies : list Movie.Movie) : Console unit :=
  match movies with
  | [] => cret tt
  | movie :: movies' => print_movie movie ;;; print_each movies'
  end.

Definition print_movies (movies : list Movie.Movie) (title : string)
    : Console unit :=
  match movies with
  | [] => say "No movies found."
  | _ =>
      say "{title} ({n} total):" ;;;
      say "{rule}" ;;;
      print_each movies
  end.

Definition add_movie_menu : Console unit :=
  print_header "Add New Movie" ;;;
  choice <- input "1. Add manually 2. Search from API Choose option (1-2): " ;;
  let choice := strip choice in
  if String.eqb choice "1" then
    title <- input "Movie title: " ;;
    let title := strip title in
    genre <- input "Genre: " ;;
    let genre := strip genre in
    rating <- input "Rating (0-10): " ;;
    rating <- float_or_raise (strip rating) ;;
    year <- input "Year: " ;;
    year <- int_or_raise (strip year) ;;
    watched <- input "Watched? (y/n): " ;;
    let watched := String.eqb (lower (strip watched)) "y" in
    update (fun self =>
              Movie.add_movie json_dump self title genre rating year watched) ;;;
    say "'{title}' added successfully!"
  else if String.eqb choice "2" then
    title <- input "Enter movie title to search: " ;;
    let title := strip title in
    say "Searching..." ;;;
    movie_data <-
      of_result (Movie.fetch_movie_from_api omdb_api_key ghibli_api omdb_api
                   py_float float_div title) ;;
    match movie_data with
    | Some movie_data =>
        say "Movie found!" ;;;
        say "Title: {title}" ;;;
        say "Genre: {genre}" ;;;
        say "Rating: {rating}/10" ;;;
        say "Year: {year}" ;;;
        (match Movie.data_description movie_data with
         | EmptyString => cret tt
         | _ => say "Description: {description}..."
         end) ;;;
        say "Source: {source}" ;;;
        confirm <- input "Add this movie? (y/n): " ;;
        let confirm := lower (strip confirm) in
        if String.eqb confirm "y" then
          result <-
            update (fun self =>
                      Movie.add_movie_from_api json_dump omdb_api_key ghibli_api
                        omdb_api py_float float_div self title) ;;
          match result with
          | Some _ => say "'{title}' added successfully!"
          | None => cret tt
          end
        else cret tt
    | None => say "Movie not found in API. Try manual entry."
    end
  else cret tt.

Definition search_menu : Console unit :=
  print_header "Search Movies" ;;;
  choice <- input "1. Search by title 2. Search by genre 3. Get recommendations (rating >= 8) Choose option (1-3): " ;;
  let choice := strip choice in
  if String.eqb choice "1" then
    title <- input "Enter title to search: " ;;
    let title := strip title in
    results <- query (fun self => Movie.search_by_title self title) ;;
    print_movies results "Search results for '{title}'"
  else if String.eqb choice "2" then
    genres <- query Movie.get_all_genres ;;
    (match genres with
     | [] => cret tt
     | _ => say "Available genres: {genres}"
     end) ;;;
    genre <- input "Enter genre: " ;;
    let genre := strip genre in
    results <- query (fun self => Movie.search_by_genre self genre) ;;
    print_movies results "Movies in '{genre}' genre"
  else if String.eqb choice "3" then
    min_rating <- input "Minimum rating (default 8.0): " ;;
    let min_rating := strip min_rating in
    min_rating <- (match min_rating with
                   | EmptyString => cret (of_Z 8)
                   | _ => float_or_raise min_rating
                   end) ;;
    results <- query (fun self => Movie.recommend self min_rating) ;;
    print_movies results "Recommended movies (rating >= {min_rating})"
  else cret tt.

Definition manage_movies_menu : Console unit :=
  print_header "Manage Movies" ;;;
  choice <- input "1. Mark movie as watched 2. Delete movie Choose option (1-2): " ;;
  let choice := strip choice in
  if String.eqb choice "1" then
    title <- input "Enter movie title: " ;;
    let title := strip title in
    found <- update (fun self => Movie.mark_as_watched json_dump self title) ;;
    if found : bool then say "'{title}' marked as watched!"
    else say "Movie '{title}' not found."
  else if String.eqb choice "2" then
    title <- input "Enter movie title to delete: " ;;
    let title := strip title in
    confirm <- input "Are you sure you want to delete '{title}'? (y/n): " ;;
    let confirm := lower (strip confirm) in
    if String.eqb confirm "y" then
      deleted <- update (fun self => Movie.delete_movie json_dump self title) ;;
      if deleted : bool then say "'{title}' deleted successfully!"
      else say "Movie '{title}' not found."
    else cret tt
  else cret tt.

Definition show_statistics : Console unit :=
  print_header "Collection Statistics" ;;;
  stats <- query (Movie.get_statistics float_sum float_div round2) ;;
  say "Total Movies: {total}" ;;;
  say "Watched: {watched}" ;;;
  say "Not Watched: {unwatched}" ;;;
  say "Average Rating: {avg_rating}/10" ;;;
  say "Different Genres: {genres}".

(** The branches of the menu: [true] when the loop goes on, [false]
    after the [break] of the choice ["6"]. *)
Definition dispatch (choice : string) : Console bool :=
  if String.eqb choice "1" then
    movies <- query Movie.list_movies ;;
    print_movies movies "All Movies" ;;;
    cret true
  else if String.eqb choice "2" then add_movie_menu ;;; cret true
  else if String.eqb choice "3" then search_menu ;;; cret true
  else if String.eqb choice "4" then manage_movies_menu ;;; cret true
  else if String.eqb choice "5" then show_statistics ;;; cret true
  else if String.eqb choice "6" then say "Goodbye!" ;;; cret false
  else say "Invalid option. Please try again." ;;; cret true.

(** One turn of the [while True] loop of [main]. *)
Definition turn : Console bool :=
  say "{rule}" ;;;
  say "MENU:" ;;;
  say "1. View all movies" ;;;
  say "2. Add movie" ;;;
  say "3. Search movies" ;;;
  say "4. Manage movies" ;;;
  say "5. View statistics" ;;;
  say "6. Exit" ;;;
  choice <- input "Choose option (1-6): " ;;
  dispatch (strip choice).

(** The loop, for at most [fuel] turns; [None] when the turns ran out. *)
Fixpoint main_loop (fuel : nat) (s : Session) : option (result unit * Session) :=
  match fuel with
  | O => None
  | S fuel' =>
      match turn s with
      | (Ok true, s') => main_loop fuel' s'
      | (Ok false, s') => Some (Ok tt, s')
      | (Raise e, s') => Some (Raise e, s')
      end
  end.

(** [main()]: the agent is built on the default path, the banner is
    printed and the loop runs. The outcome is the agent the program ends
    with, or the exception that ended it, with the lines left unread
    and the world. *)
Definition main (fuel : nat) (lines : list string) (w : World)
    : option (result Movie.MovieAgent * list string * World) :=
  match Movie.init json_load "data/movies.json" false None w with
  | (Raise e, w') => Some (Raise e, lines, w')
  | (Ok agent, w') =>
      let banner :=
        print_header "Movie Agent CLI" ;;;
        say "Welcome to Movie Agent!" ;;;
        match omdb_api_key with
        | None | Some EmptyString =>
            say "OMDB API: Not configured (only Ghibli API available)"
        | Some _ => say "OMDB API: Enabled"
        end in
      match main_loop fuel (snd (banner (mkSession lines agent w'))) with
      | None => None
      | Some (Ok _, s) => Some (Ok (Cli.agent s), stdin s, outside s)
      | Some (Raise e, s) => Some (Raise e, stdin s, outside s)
      end
  end.

End Program.
End Cli.

(* ------------------------------------------------------------------ *)
(** ** Vocabulary of the properties *)

(** A script of [add_book] and [delete_book] calls on one
    [LibraryAgent], and the identifiers its [add_book] calls assigned. *)
Inductive op : Type :=
  | Add (title author genre : string) (year : option Z) (isbn : option string)
  | Delete (book_id : Z).

Record run_state : Type := mkRun {
  agent : Library.LibraryAgent;
  world : World;
  assigned : list Z                  (* identifiers handed out, oldest first *)
}.

Section Scripts.
Variable json_dump : list Library.Book -> string.

Definition step (st : run_state) (o : op) : run_state :=
  match o with
  | Add t a g y i =>
      match Library.add_book json_dump (agent st) t a g y i (world st) with
      | (Ok (book, self), w) => mkRun self w (assigned st ++ [Library.id book])
      | (Raise _, w) => mkRun (agent st) w (assigned st)
      end
  | Delete k =>
      match Library.delete_book json_dump (agent st) k (world st) with
      | (Ok (_, self), w) => mkRun self w (assigned st)
      | (Raise _, w) => mkRun (agent st) w (assigned st)
      end
  end.

Definition run (ops : list op) (st : run_state) : run_state :=
  fold_left step ops st.
End Scripts.

(** The identifiers present in a collection, and the ratings a reader of
    the statistics sees as absent. *)
Definition ids (l : list Library.Book) : list Z := map Library.id l.

Definition forget_zero_rating (b : Library.Book) : Library.Book :=
  if Library.rating_truthy b then b
  else Library.mkBook (Library.id b) (Library.title b) (Library.author b)
         (Library.genre b) (Library.year b) (Library.isbn b) None
         (Library.status b) (Library.added_date b) (Library.notes b).


(** Sample data: a world with no file yet where every path can be
    written, and a stand-in for the JSON codec that knows two texts. *)
Definition world0 : World :=
  mkWorld (fun _ => Absent) (fun _ => true) "2024-01-01" [].

Definition read_only (w : World) : World :=
  mkWorld (fs w) (fun _ => false) (today w) (trace w).


Definition sample_book (k : Z) (g : string) (r : option pyfloat) : Library.Book :=
  Library.mkBook k "Dune" "Frank Herbert" g (Some 1965%Z) None r "unread"
                 "2024-01-01" "".

Definition sample_books : list Library.Book :=
  [sample_book 1 "Fiction" (Some (of_Z 5)); sample_book 2 "Essay" None].

Definition sample_dump (bs : list Library.Book) : string :=
  match bs with
  | [] => "[]"
  | _ => "[{...}]"
  end.

Definition sample_load (text : string) : option (list Library.Book) :=
  if String.eqb text "[]" then Some []
  else if String.eqb text "[{...}]" then Some sample_books
  else None.

Definition sample_movie (t : string) (r : Z) : Movie.Movie :=
  Movie.mkMovie t "Animation" (of_Z r) 2001 false.

Definition sample_movie_dump (ms : list Movie.Movie) : string :=
  match ms with
  | [] => "[]"
  | _ => "[{...}]"
  end.

Definition sample_movie_load (text : string) : option (list Movie.Movie) :=
  if String.eqb text "[]" then Some [] else None.

Definition library0 : Library.LibraryAgent := Library.mkAgent "data/books.json" [].
Definition library1 : Library.LibraryAgent :=
  Library.mkAgent "data/books.json" sample_books.
Definition library_zero : Library.LibraryAgent :=
  Library.mkAgent "data/books.json" [sample_book 1 "Fiction" (Some (of_Z 0))].
Definition cinema1 : Movie.MovieAgent :=
  Movie.mkAgent "data/movies.json" false
    [sample_movie "Totoro" 9; sample_movie "Ponyo" 7; sample_movie "TOTORO" 8].

Definition script_delete_last : list op :=
  [Add "Dune" "Frank Herbert" "Fiction" None None;
   Delete 1;
   Add "Emma" "Jane Austen" "Fiction" None None].

(** A float that is not NaN compares with itself. *)
Definition is_number (a : pyfloat) : Prop := float_le a a = true.


(** A rating outside the closed interval from 0 to 5: a finite value
    below 0 or above 5, an infinity, or NaN. *)
Definition outside_0_5 (r : pyfloat) : Prop :=
  match r with
  | Fin q => (q < 0 \/ 5 < q)%Q
  | _ => True
  end.


(** The record [add_book] builds. *)
Definition new_book (self : Library.LibraryAgent) (t a g : string)
    (y : option Z) (i : option string) (w : World) : Library.Book :=
  Library.mkBook (Library._generate_book_id self) (strip t) (strip a) (strip g)
                 y i None "unread" (today w) "".

(** Whether [save_movies] can do its work: nothing to write with
    session state, a writable file otherwise. *)
Definition can_persist (self : Movie.MovieAgent) (w : World) : Prop :=
  Movie.use_session_state self = true \/ writable w (Movie.data_path self) = true.

(** The records [delete_movie] keeps. *)
Definition kept (t : string) (l : list Movie.Movie) : list Movie.Movie :=
  filter (fun movie => negb (Movie.same_title t movie)) l.

(** Unfolding of the world monad in proofs. *)
Ltac run_io :=
  unfold bind, ret, raise, try_except, logger, print, now_date, path_exists,
    read_text, write_text; cbv beta iota zeta.

(** A rating that is present lies between 0 and 5. *)
Definition rating_in_range (b : Library.Book) : Prop :=
  match Library.rating b with
  | Some r => float_le (of_Z 0) r = true /\ float_le r (of_Z 5) = true
  | None => True
  end.

(** The status is one of the three the console offers. *)
Definition status_valid (b : Library.Book) : Prop :=
  Main.valid_status (Library.status b) = true.

(** The first record of [l] that satisfies [p] is [b], at the end of the
    prefix [l1]. *)
Definition first_match {A : Type} (p : A -> bool) (l l1 : list A) (b : A)
    (l2 : list A) : Prop :=
  l = l1 ++ b :: l2 /\ (forall x, In x l1 -> p x = false) /\ p b = true.

(** The agent as a call leaves it (unchanged if the call raised). *)
Definition agent_after {A : Type}
    (r : result (A * Library.LibraryAgent) * World)
    (self : Library.LibraryAgent) : Library.LibraryAgent :=
  match r with
  | (Ok (_, self'), _) => self'
  | (Raise _, _) => self
  end.

(** Whether a call returned [True]. *)
Definition succeeded (r : result (bool * Library.LibraryAgent) * World) : bool :=
  match r with
  | (Ok (b, _), _) => b
  | (Raise _, _) => false
  end.

(** The books of [l] filed under [g] by [key], in the order of [l]. *)
Definition filed_under (key : Library.Book -> string) (g : string)
    (l : list Library.Book) : list Library.Book :=
  filter (fun b => String.eqb (key b) g) l.

(** [organized] groups the books of [l] by [key]: no key twice, and
    under each key exactly the books it is the key of, never none. *)
Definition groups_of (key : Library.Book -> string) (l : list Library.Book)
    (organized : list (string * list Library.Book)) : Prop :=
  NoDup (map fst organized) /\
  forall g group,
    In (g, group) organized <-> group = filed_under key g l /\ group <> [].

(** The number a string of decimal digits denotes. *)
Definition number_of_digits (s : string) : Z :=
  fold_left (fun acc c => (10 * acc + digit_value c)%Z) (list_ascii_of_string s) 0%Z.

(** A string without white space. *)
Fixpoint no_space (s : string) : bool :=
  match s with
  | EmptyString => true
  | String c s' => (negb (is_space c) && no_space s')%bool
  end.

(** The address [fetch_book_details] asks. *)
Definition isbn_url (isbn : string) : string :=
  ("https://openlibrary.org/api/books?" ++
   "bibkeys=ISBN:" ++ isbn ++ "&format=json&jscmd=data")%string.


(** Strictly ascending order of strings. *)
Definition string_lt (a b : string) : Prop := String.ltb a b = true.

(** The movie as it comes out of the outcome of a call. *)
Definition cinema_after {A : Type}
    (r : result A * Movie.MovieAgent * World) : Movie.MovieAgent :=
  snd (fst r).



(** The console session that starts with the given lines to read. *)
Definition session (lines : list string) (self : Library.LibraryAgent)
    (w : World) : Main.Session :=
  Main.mkSession lines self w.

(** More sample data: a library without ratings, stand-ins for the
    floating-point and network parameters, and a console input. *)
Definition library_plain : Library.LibraryAgent :=
  Library.mkAgent "data/books.json"
    [sample_book 1 "Fiction" None; sample_book 2 "Essay" None].

Definition sample_float_sum (l : list pyfloat) : pyfloat := of_Z 5.
Definition sample_float_div (x : pyfloat) (n : nat) : pyfloat := x.
Definition sample_round2 (x : pyfloat) : pyfloat := x.
Definition sample_float_str (x : pyfloat) : string := "5.0".
Definition sample_py_float (s : string) : option pyfloat :=
  if String.eqb s "5" then Some (of_Z 5) else None.

Definition sample_entry : Library.BookData :=
  Library.mkBookData (Some "Dune") ["Frank Herbert"] (Some "June 1965") ["Ace"]
                     (Some 412%Z) None.

Definition sample_openlibrary (url : string) : Library.http_outcome :=
  if String.eqb url (isbn_url "0441013597")
  then Library.HttpReply 200 (Some sample_entry)
  else Library.HttpReply 404 None.

Definition sample_ghibli_film : Movie.Film :=
  Movie.mkFilm "My Neighbor Totoro" "5" "1988"
               (Some "Two girls meet a forest spirit.") (Some "Hayao Miyazaki").

Definition sample_unscored_film : Movie.Film :=
  Movie.mkFilm "Ponyo" "n/a" "2008" None None.

Definition sample_ghibli_api : Movie.response (list Movie.Film) :=
  Movie.Reply 200%Z [sample_unscored_film; sample_ghibli_film].


Definition sample_omdb_data : Movie.OmdbData :=
  Movie.mkOmdbData (Some "True") (Some "N/A") (Some "Alien")
                   (Some "Horror, Sci-Fi") (Some "1979") None
                   (Some "Ridley Scott").

Definition sample_omdb_api (t key : string) : Movie.response Movie.OmdbData :=
  if String.eqb (lower t) "alien" then Movie.Reply 200%Z sample_omdb_data
  else Movie.Reply 200%Z (Movie.mkOmdbData (Some "False") None None None None None None).



Definition sample_lines : list string :=
  ["5"; "2"; "read"; "6"; "1"; "5"; "11"; "x"; "0"].




(** The session of that program that starts with the given lines. *)
Definition cli_session (lines : list string) (self : Movie.MovieAgent)
    (w : World) : Cli.Session :=
  Cli.mkSession lines self w.

(* ------------------------------------------------------------------ *)
(** ** Facts about numbers and lists *)

Lemma Qcleb_iff (x y : Qc) : Qcleb x y = true <-> (x <= y)%Q.
Proof. unfold Qcleb. apply Qle_bool_iff. Qed.




Lemma float_le_number_l a b : float_le a b = true -> is_number a.
Proof.
  unfold is_number. destruct a, b; simpl; try congruence.
  all: intros _; apply Qcleb_iff; apply Qle_refl.
Qed.




Lemma float_truthy_zero : float_truthy (of_Z 0) = false.
Proof. reflexivity. Qed.

Lemma float_zero_in_range :
  (float_le (of_Z 0) (of_Z 0) && float_le (of_Z 0) (of_Z 5))%bool = true.
Proof. reflexivity. Qed.

Section ListFacts.
Context {A : Type}.



Lemma filter_all (p : A -> bool) (l : list A) :
  (forall x, In x l -> p x = true) -> filter p l = l.
Proof.
  induction l as [|x l IH]; simpl; intros H; [reflexivity |].
  rewrite (H x (or_introl eq_refl)). f_equal. apply IH. intros y Hy.
  apply H. now right.
Qed.

Lemma filter_length_lt (p : A -> bool) (l : list A) :
  (List.length (filter p l) < List.length l)%nat <->
  exists x, In x l /\ p x = false.
Proof.
  induction l as [|x l IH]; simpl.
  - split; [lia | intros [x [[] _]]].
  - pose proof (filter_length_le p l) as Hle.
    destruct (p x) eqn:Hx; simpl.
    + rewrite <- Nat.succ_lt_mono, IH. split.
      * intros [y [Hy Hp]]. exists y. auto.
      * intros [y [[<- | Hy] Hp]]; [congruence |]. exists y. auto.
    + split; [| lia]. intros _. exists x. auto.
Qed.

(** Insertion keeps the elements. *)
Lemma insert_desc_perm (key : A -> pyfloat) (x : A) (l : list A) :
  Permutation (insert_desc key x l) (x :: l).
Proof.
  induction l as [|y l IH]; simpl; [reflexivity |].
  destruct (float_gt (key y) (key x)); [| reflexivity].
  rewrite IH. apply perm_swap.
Qed.

Lemma sort_desc_perm (key : A -> pyfloat) (l : list A) :
  Permutation (sort_desc key l) l.
Proof.
  induction l as [|x l IH]; simpl; [reflexivity |].
  rewrite insert_desc_perm. now constructor.
Qed.



End ListFacts.

(* ------------------------------------------------------------------ *)
(** ** The library agent *)


Section LibraryFacts.
Import Library.
Variable json_dump : list Book -> string.
Variable json_load : string -> option (list Book).

Lemma fs_emit e w : fs (emit e w) = fs w.
Proof. reflexivity. Qed.

(** [save_books] never raises; it answers whether the write went
    through, and only then is the file touched. *)
Lemma save_books_written self w :
  writable w (storage_path self) = true ->
  save_books json_dump self w =
    (Ok true,
     emit (Log INFO "Saved %d books to storage")
          (write_file (storage_path self) (json_dump (books self)) w)).
Proof. intros H. unfold save_books. run_io. now rewrite H. Qed.

Lemma save_books_failed self w :
  writable w (storage_path self) = false ->
  save_books json_dump self w =
    (Ok false,
     emit (Print "Error saving books: {error}")
          (emit (Log ERROR "Error saving books: %s") w)).
Proof. intros H. unfold save_books. run_io. now rewrite H. Qed.

Lemma save_books_returns self w :
  exists w', save_books json_dump self w = (Ok (writable w (storage_path self)), w').
Proof.
  destruct (writable w (storage_path self)) eqn:H.
  - rewrite save_books_written by assumption. eauto.
  - rewrite save_books_failed by assumption. eauto.
Qed.


Lemma add_book_returns self t a g y i w :
  let book := new_book self t a g y i w in
  let self' := with_books self (books self ++ [book]) in
  add_book json_dump self t a g y i w =
    (Ok (book, self'),
     emit (Print "Added: '{title}' by {author}")
          (emit (Log INFO "Added book: '%s' by %s")
                (snd (save_books json_dump self' w)))).
Proof.
  intros book self'. unfold add_book. run_io. fold (new_book self t a g y i w).
  fold book. fold self'.
  destruct (save_books_returns self' w) as [w' Hs]. rewrite Hs. reflexivity.
Qed.

Lemma max_id_ge b l x : In x (b :: l) -> (id x <= max_id b l)%Z.
Proof.
  revert b. induction l as [|c l IH]; intros b [<- | H]; simpl in *.
  - lia.
  - contradiction.
  - lia.
  - specialize (IH c H). lia.
Qed.

Lemma max_id_in b l : exists x, In x (b :: l) /\ id x = max_id b l.
Proof.
  revert b. induction l as [|c l IH]; intros b.
  - exists b. simpl. auto.
  - destruct (IH c) as [x [Hx Hid]]. simpl max_id.
    destruct (Z.max_spec (id b) (max_id c l)) as [[_ ->] | [_ ->]].
    + exists x. split; [now right | assumption].
    + exists b. split; [now left | reflexivity].
Qed.

Lemma max_id_app b l x : max_id b (l ++ [x]) = Z.max (max_id b l) (id x).
Proof.
  revert b. induction l as [|c l IH]; intros b; simpl.
  - reflexivity.
  - rewrite IH. lia.
Qed.

(** The identifier handed out is above every identifier present. *)
Lemma generate_book_id_fresh self x :
  In x (books self) -> (id x < _generate_book_id self)%Z.
Proof.
  unfold _generate_book_id. destruct (books self) as [|b l]; [intros [] |].
  intros H. apply max_id_ge in H. lia.
Qed.

Lemma generate_book_id_after_add self x :
  id x = _generate_book_id self ->
  _generate_book_id (with_books self (books self ++ [x])) = (id x + 1)%Z.
Proof.
  intros Hx. pose proof (generate_book_id_fresh self) as Hfresh.
  unfold _generate_book_id in *. simpl. destruct (books self) as [|b l]; simpl.
  - reflexivity.
  - rewrite max_id_app. lia.
Qed.

Lemma find_app_last {A} (p : A -> bool) l b :
  (forall x, In x l -> p x = false) -> p b = true -> find p (l ++ [b]) = Some b.
Proof.
  intros Hl Hb. induction l as [|x l IH]; simpl.
  - now rewrite Hb.
  - rewrite (Hl x (or_introl eq_refl)). apply IH. intros y Hy. apply Hl. now right.
Qed.

Lemma In_pop {A} (i : nat) (l : list A) x : In x (pop i l) -> In x l.
Proof.
  revert i. induction l as [|y l IH]; intros [|i]; simpl; auto.
  intros [<- | H]; eauto.
Qed.

Lemma NoDup_ids_pop i l : NoDup (ids l) -> NoDup (ids (pop i l)).
Proof.
  revert i. induction l as [|y l IH]; intros [|i]; simpl; auto.
  - intros H. now inversion H.
  - intros H. inversion H as [|? ? Hnot Hnd]; subst. constructor; [| now apply IH].
    intros Hin. apply Hnot. unfold ids in *. rewrite in_map_iff in *.
    destruct Hin as [z [Hz Hin]]. exists z. split; [assumption |].
    eapply In_pop; eassumption.
Qed.

Lemma NoDup_ids_add self x :
  id x = _generate_book_id self ->
  NoDup (ids (books self)) -> NoDup (ids (books self ++ [x])).
Proof.
  intros Hx Hnd. unfold ids in *. rewrite map_app. simpl.
  apply NoDup_rev in Hnd. rewrite <- (rev_involutive (_ ++ _)).
  apply NoDup_rev. rewrite rev_app_distr. simpl. constructor; [| assumption].
  rewrite <- in_rev, in_map_iff. intros [z [Hz Hin]].
  apply generate_book_id_fresh in Hin. lia.
Qed.

Lemma delete_book_found self book_id i w :
  find_index (has_id book_id) (books self) = Some i ->
  let self' := with_books self (pop i (books self)) in
  delete_book json_dump self book_id w =
    (Ok (true, self'),
     emit (Print "Deleted: '{title}'")
          (emit (Log INFO "Deleted book ID %d: '%s'")
                (snd (save_books json_dump self' w)))).
Proof.
  intros Hi self'. unfold delete_book. rewrite Hi. run_io. fold self'.
  destruct (save_books_returns self' w) as [w' Hs]. rewrite Hs. reflexivity.
Qed.

Lemma delete_book_missing self book_id w :
  find_index (has_id book_id) (books self) = None ->
  delete_book json_dump self book_id w =
    (Ok (false, self),
     emit (Print "Book ID {book_id} not found")
          (emit (Log WARNING "Book ID %d not found for deletion") w)).
Proof. intros Hi. unfold delete_book. rewrite Hi. reflexivity. Qed.

Lemma step_keeps_ids_distinct st o :
  NoDup (ids (books (agent st))) ->
  NoDup (ids (books (agent (step json_dump st o)))).
Proof.
  intros Hnd. destruct o as [t a g y i | k]; unfold step.
  - rewrite add_book_returns. simpl. now apply NoDup_ids_add.
  - destruct (find_index (has_id k) (books (agent st))) as [i |] eqn:Hi.
    + rewrite (delete_book_found _ _ _ _ Hi). simpl. now apply NoDup_ids_pop.
    + rewrite (delete_book_missing _ _ _ Hi). assumption.
Qed.

Lemma run_keeps_ids_distinct ops st :
  NoDup (ids (books (agent st))) ->
  NoDup (ids (books (agent (run json_dump ops st)))).
Proof.
  revert st. induction ops as [|o ops IH]; intros st Hnd; simpl; [assumption |].
  apply IH. now apply step_keeps_ids_distinct.
Qed.

Lemma load_books_content self w text :
  fs w (storage_path self) = Content text ->
  load_books json_load self w =
    match json_load text with
    | Some decoded =>
        (Ok decoded, emit (Log INFO "Loaded %d books from storage") w)
    | None =>
        (Ok [],
         emit (Print "Warning: Storage file corrupted. Starting fresh.")
              (emit (Log ERROR "JSON decode error: %s") w))
    end.
Proof.
  intros H. unfold load_books, load_books_body. run_io. rewrite H.
  cbv beta iota. rewrite H. now destruct (json_load text).
Qed.

End LibraryFacts.


Lemma Qcleb_of_Z_l (z : Z) (q : Qc) :
  Qcleb (Q2Qc (inject_Z z)) q = true <-> (inject_Z z <= q)%Q.
Proof.
  rewrite Qcleb_iff. change (this (Q2Qc (inject_Z z))) with (Qred (inject_Z z)).
  now rewrite Qred_correct.
Qed.

Lemma Qcleb_of_Z_r (z : Z) (q : Qc) :
  Qcleb q (Q2Qc (inject_Z z)) = true <-> (q <= inject_Z z)%Q.
Proof.
  rewrite Qcleb_iff. change (this (Q2Qc (inject_Z z))) with (Qred (inject_Z z)).
  now rewrite Qred_correct.
Qed.

Lemma outside_0_5_rejected (r : pyfloat) :
  outside_0_5 r <->
  (float_le (of_Z 0) r && float_le r (of_Z 5))%bool = false.
Proof.
  destruct r as [| |q|]; simpl; try tauto.
  rewrite andb_false_iff. split.
  - intros [H | H]; [left | right]; apply not_true_is_false; intros Hle.
    + apply Qcleb_of_Z_l in Hle. exact (Qlt_not_le _ _ H Hle).
    + apply Qcleb_of_Z_r in Hle. exact (Qlt_not_le _ _ H Hle).
  - intros [H | H]; [left | right]; apply Qnot_le_lt; intros Hle.
    + apply (Qcleb_of_Z_l 0 q) in Hle. unfold of_Z in H. congruence.
    + apply (Qcleb_of_Z_r 5 q) in Hle. congruence.
Qed.

(* ------------------------------------------------------------------ *)
(** ** Properties of the library agent *)

Section LibraryClaims.
Variable json_dump : list Library.Book -> string.
Variable json_load : string -> option (list Library.Book).

(** C1 (as amended). The identifier [add_book] assigns is the largest
    identifier present plus 1, or 1 for an empty collection; it is above
    every identifier present, and the next [add_book] assigns exactly
    one more. Under every script of [add_book] and [delete_book] calls
    the identifiers present stay pairwise distinct; and after a
    successful [delete_book] the deleted identifier is not assigned
    again as long as a record with an identifier at least as large
    remains. *)
Theorem identifier_assignment :
  forall self : Library.LibraryAgent,
    (Library.books self = [] /\ Library._generate_book_id self = 1%Z \/
     exists b, In b (Library.books self) /\
               (forall x, In x (Library.books self) ->
                          (Library.id x <= Library.id b)%Z) /\
               Library._generate_book_id self = (Library.id b + 1)%Z) /\
    (forall t a g y i w, exists book self' w',
        Library.add_book json_dump self t a g y i w = (Ok (book, self'), w') /\
        Library.id book = Library._generate_book_id self /\
        (forall x, In x (Library.books self) ->
                   (Library.id x < Library.id book)%Z) /\
        forall t2 a2 g2 y2 i2, exists book2 self2 w2,
          Library.add_book json_dump self' t2 a2 g2 y2 i2 w' =
            (Ok (book2, self2), w2) /\
          Library.id book2 = (Library.id book + 1)%Z) /\
    (forall ops w given,
        NoDup (ids (Library.books self)) ->
        NoDup (ids (Library.books
                      (agent (run json_dump ops (mkRun self w given)))))) /\
    (forall k w self' w',
        Library.delete_book json_dump self k w = (Ok (true, self'), w') ->
        forall x, In x (Library.books self') -> (k <= Library.id x)%Z ->
                  (k < Library._generate_book_id self')%Z).
Proof.
  intros self. split; [| split; [| split]].
  - unfold Library._generate_book_id.
    destruct (Library.books self) as [|b l] eqn:Hb; [left; split; reflexivity |].
    right. destruct (max_id_in b l) as [x [Hx Hid]]. exists x.
    split; [assumption |]. split; [| now rewrite Hid].
    intros z Hz. rewrite Hid. now apply max_id_ge.
  - intros t a g y i w. eexists _, _, _. split; [apply add_book_returns |].
    split; [reflexivity |]. split.
    + intros x Hx. simpl. now apply generate_book_id_fresh.
    + intros t2 a2 g2 y2 i2. eexists _, _, _.
      split; [apply add_book_returns |]. simpl.
      now rewrite generate_book_id_after_add.
  - intros ops w given Hnd. now apply run_keeps_ids_distinct.
  - intros k w self' w' Hdel x Hx Hk.
    pose proof (generate_book_id_fresh self' x Hx). lia.
Qed.

(** C4. For every collection and every field input, [add_book] returns
    a record, and [get_book_by_id] with that record's identifier then
    returns the same record. *)
Theorem add_then_get_by_id :
  forall self t a g y i w, exists book self' w',
    Library.add_book json_dump self t a g y i w = (Ok (book, self'), w') /\
    Library.get_book_by_id self' (Library.id book) = Some book.
Proof.
  intros self t a g y i w. eexists _, _, _.
  split; [apply add_book_returns |].
  unfold Library.get_book_by_id. simpl. apply find_app_last.
  - intros x Hx. apply generate_book_id_fresh in Hx.
    unfold Library.has_id. apply Z.eqb_neq. lia.
  - unfold Library.has_id. apply Z.eqb_refl.
Qed.

(** C5. For every book id and every rating outside the closed interval
    from 0 to 5, [rate_book] returns [False], leaves every record as it
    was and writes nothing to the file system. *)
Theorem rate_book_out_of_range :
  forall self book_id r w,
    outside_0_5 r ->
    exists w',
      Library.rate_book json_dump self book_id r w = (Ok (false, self), w') /\
      fs w' = fs w.
Proof.
  intros self book_id r w Hout. apply outside_0_5_rejected in Hout.
  unfold Library.rate_book. rewrite Hout. simpl. run_io.
  eexists. split; reflexivity.
Qed.

End LibraryClaims.

(* ------------------------------------------------------------------ *)
(** ** Ratings, recommendations and statistics *)



Section RatingFacts.
Import Library.



Lemma get_recommendations_returns self g m w :
  get_recommendations self g m w =
    (Ok (sort_desc rating_key (filter (recommended g m) (books self))),
     emit (Log INFO "Generated %d recommendations (genre: %s, min_rating: %f)") w).
Proof. reflexivity. Qed.

Lemma In_recommendations self g m b :
  In b (sort_desc rating_key (filter (recommended g m) (books self))) <->
  In b (books self) /\ recommended g m b = true.
Proof.
  rewrite <- filter_In. split; apply Permutation_in.
  - apply sort_desc_perm.
  - symmetry. apply sort_desc_perm.
Qed.

Lemma forget_zero_rating_truthy b :
  rating_truthy (forget_zero_rating b) = rating_truthy b.
Proof.
  unfold forget_zero_rating. destruct (rating_truthy b) eqn:H; [assumption |].
  reflexivity.
Qed.

Lemma filter_forget_zero_rating (p : Book -> bool) l :
  (forall b, p b = true -> rating_truthy b = true) ->
  (forall b, p (forget_zero_rating b) = true -> rating_truthy b = true) ->
  filter p (map forget_zero_rating l) = filter p l.
Proof.
  intros Hp Hq. induction l as [|x l IH]; simpl; [reflexivity |].
  rewrite IH. unfold forget_zero_rating at 1 2.
  destruct (rating_truthy x) eqn:Hx; [reflexivity |].
  destruct (p x) eqn:Hpx; [apply Hp in Hpx; congruence |].
  match goal with |- (if p ?y then _ else _) = _ => destruct (p y) eqn:Hpy end;
    [| reflexivity].
  assert (Ht : rating_truthy x = true); [| congruence].
  apply Hq. unfold forget_zero_rating. now rewrite Hx.
Qed.

Lemma recommended_truthy g m b : recommended g m b = true -> rating_truthy b = true.
Proof.
  unfold recommended, rating_truthy. destruct (rating b); [| discriminate].
  rewrite !andb_true_iff. tauto.
Qed.

Lemma find_set_at (p : Book -> bool) (f : Book -> Book) l b0 :
  (forall x, p (f x) = p x) ->
  find p l = Some b0 ->
  exists i, find_index p l = Some i /\ find p (set_at i f l) = Some (f b0).
Proof.
  intros Hf. induction l as [|x l IH]; simpl; [discriminate |].
  destruct (p x) eqn:Hx.
  - intros [= <-]. exists 0%nat. simpl. now rewrite Hf, Hx.
  - intros H. destruct (IH H) as [i [Hi Hfind]]. exists (S i).
    rewrite Hi. simpl. now rewrite Hx.
Qed.
End RatingFacts.

Section RatingClaims.
Variable json_dump : list Library.Book -> string.
Variable float_sum : list pyfloat -> pyfloat.
Variable float_div : pyfloat -> nat -> pyfloat.
Variable round2 : pyfloat -> pyfloat.

(** C9. [rate_book] accepts the rating 0 and stores it; a book whose
    stored rating is 0 is not among the rated books that
    [get_statistics] counts and averages, and is in no result of
    [get_recommendations], whatever the threshold. Statistics and
    recommendations are the same as if every rating 0 were absent. *)
Theorem zero_rating_reads_as_unrated :
  forall self book_id w,
    (forall b0, Library.get_book_by_id self book_id = Some b0 ->
       exists self' w',
         Library.rate_book json_dump self book_id (of_Z 0) w =
           (Ok (true, self'), w') /\
         Library.get_book_by_id self' book_id =
           Some (Library.set_rating (of_Z 0) b0)) /\
    (forall b, In b (Library.books self) ->
               Library.rating b = Some (of_Z 0) ->
       ~ In b (Library.rated_books self) /\
       forall g m, exists recs w',
         Library.get_recommendations self g m w = (Ok recs, w') /\
         ~ In b recs) /\
    (let unrated :=
       Library.with_books self (map forget_zero_rating (Library.books self)) in
     Library.get_statistics float_sum float_div round2 unrated =
       Library.get_statistics float_sum float_div round2 self /\
     forall g m,
       fst (Library.get_recommendations unrated g m w) =
       fst (Library.get_recommendations self g m w)).
Proof.
  intros self book_id w. split; [| split].
  - intros b0 Hb0. unfold Library.rate_book.
    rewrite float_zero_in_range. simpl negb. cbv iota. rewrite Hb0.
    unfold Library.get_book_by_id in Hb0.
    destruct (find_set_at (Library.has_id book_id)
                (Library.set_rating (of_Z 0)) _ b0 (fun x => eq_refl) Hb0)
      as [i [Hi Hfind]].
    unfold Library.mutate_book. rewrite Hi. run_io. cbn [negb]. cbv beta iota.
    match goal with
    | |- context [Library.save_books json_dump ?s w] =>
        destruct (save_books_returns json_dump s w) as [w1 Hs]; rewrite Hs
    end.
    eexists _, _. split; [reflexivity |]. exact Hfind.
  - intros b Hb Hr. split.
    + unfold Library.rated_books. rewrite filter_In.
      unfold Library.rating_truthy. rewrite Hr, float_truthy_zero.
      intros [_ H]. discriminate.
    + intros g m. rewrite get_recommendations_returns. eexists _, _.
      split; [reflexivity |]. rewrite In_recommendations.
      intros [_ H]. apply recommended_truthy in H.
      unfold Library.rating_truthy in H. rewrite Hr, float_truthy_zero in H.
      discriminate.
  - cbv zeta. split.
    + unfold Library.get_statistics, Library.rated_books, Library.count_status.
      simpl Library.books.
      rewrite (filter_forget_zero_rating Library.rating_truthy)
        by (intros b; rewrite ?forget_zero_rating_truthy; auto).
      rewrite !length_map.
      assert (Hst : forall s l,
                 filter (fun book => String.eqb (Library.status book) s)
                        (map forget_zero_rating l) =
                 map forget_zero_rating
                     (filter (fun book => String.eqb (Library.status book) s) l)).
      { intros s l. induction l as [|x l IH]; simpl; [reflexivity |].
        rewrite IH.
        assert (Hx : Library.status (forget_zero_rating x) = Library.status x).
        { unfold forget_zero_rating. now destruct (Library.rating_truthy x). }
        rewrite Hx. now destruct (String.eqb (Library.status x) s). }
      rewrite !Hst, !length_map, !map_map.
      assert (Hg : forall l, map (fun x => Library.genre (forget_zero_rating x)) l =
                             map Library.genre l).
      { intros l. apply map_ext. intros x. unfold forget_zero_rating.
        now destruct (Library.rating_truthy x). }
      assert (Ha : forall l, map (fun x => Library.author (forget_zero_rating x)) l =
                             map Library.author l).
      { intros l. apply map_ext. intros x. unfold forget_zero_rating.
        now destruct (Library.rating_truthy x). }
      rewrite Hg, Ha. reflexivity.
    + intros g m. rewrite !get_recommendations_returns. simpl.
      rewrite (filter_forget_zero_rating (Library.recommended g m)).
      * reflexivity.
      * apply recommended_truthy.
      * intros b H. apply recommended_truthy in H.
        now rewrite forget_zero_rating_truthy in H.
Qed.
End RatingClaims.

(* ------------------------------------------------------------------ *)
(** ** The movie agent *)

Section MovieFacts.
Import Movie.
Variable json_dump : list Movie -> string.
Variable json_load : string -> option (list Movie).





Lemma with_movies_same self : with_movies self (movies self) = self.
Proof. now destruct self. Qed.

Lemma same_title_false t m :
  same_title t m = false <-> lower (title m) <> lower t.
Proof. unfold same_title. apply String.eqb_neq. Qed.

Lemma same_title_true t m :
  same_title t m = true <-> lower (title m) = lower t.
Proof. unfold same_title. apply String.eqb_eq. Qed.


Lemma delete_movie_no_match self t w :
  (forall m, In m (movies self) -> lower (title m) <> lower t) ->
  delete_movie json_dump self t w = (Ok false, self, w).
Proof.
  intros H. unfold delete_movie. cbv zeta. simpl movies.
  rewrite filter_all.
  - rewrite Nat.ltb_irrefl. now rewrite with_movies_same.
  - intros m Hm. apply negb_true_iff, same_title_false. now apply H.
Qed.

Lemma delete_movie_match self t w :
  (exists m, In m (movies self) /\ lower (title m) = lower t) ->
  delete_movie json_dump self t w =
    let self' := with_movies self (kept t (movies self)) in
    match save_movies json_dump self' w with
    | (Ok _, w') => (Ok true, self', w')
    | (Raise e, w') => (Raise e, self', w')
    end.
Proof.
  intros H. unfold delete_movie. cbv zeta. simpl movies. fold (kept t (movies self)).
  assert (Hlt : Nat.ltb (List.length (kept t (movies self)))
                        (List.length (movies self)) = true).
  { apply Nat.ltb_lt. unfold kept. apply filter_length_lt.
    destruct H as [m [Hm Ht]]. exists m. split; [assumption |].
    apply negb_false_iff, same_title_true. assumption. }
  now rewrite Hlt.
Qed.

Lemma title_match_dec t (l : list Movie) :
  (exists m, In m l /\ lower (title m) = lower t) \/
  (forall m, In m l -> lower (title m) <> lower t).
Proof.
  induction l as [|x l [IH | IH]].
  - right. intros m [].
  - left. destruct IH as [m [Hm Ht]]. exists m. split; [now right | assumption].
  - destruct (string_dec (lower (title x)) (lower t)) as [Hx | Hx].
    + left. exists x. split; [now left | assumption].
    + right. intros m [<- | Hm]; [assumption | now apply IH].
Qed.
End MovieFacts.

(* ------------------------------------------------------------------ *)
(** ** Properties shared by the two agents *)

Section RepositoryClaims.
Variable json_dump : list Library.Book -> string.
Variable json_load : string -> option (list Library.Book).
Variable movie_dump : list Movie.Movie -> string.
Variable movie_load : string -> option (list Movie.Movie).





End RepositoryClaims.

Section MovieClaims.
Variable movie_dump : list Movie.Movie -> string.

End MovieClaims.

(* ------------------------------------------------------------------ *)
(** ** The properties at sample inputs *)

(** Where the statements above do not hold as first written. *)

(** C1, as first written, fails: after [add_book], [delete_book 1] and
    [add_book] again on an empty library, the identifier 1 has been
    assigned twice. *)
Lemma identifier_reused_after_delete :
  assigned (run sample_dump script_delete_last (mkRun library0 world0 [])) =
    [1%Z; 1%Z] /\
  ~ NoDup (assigned (run sample_dump script_delete_last (mkRun library0 world0 []))).
Proof.
  assert (H : assigned (run sample_dump script_delete_last
                          (mkRun library0 world0 [])) = [1%Z; 1%Z])
    by (vm_compute; reflexivity).
  split; [exact H |]. rewrite H. intros Hnd.
  inversion Hnd as [|? ? Hnot _]; subst. apply Hnot. now left.
Qed.




(** [delete_movie] removing two records in one call. *)
Example delete_movie_two_at_once :
  fst (Movie.delete_movie sample_movie_dump cinema1 "totoro" world0) =
    (Ok true, Movie.with_movies cinema1 [sample_movie "Ponyo" 7]).
Proof. vm_compute. reflexivity. Qed.

(** The scenario of the statistics: rating book 1 with 0 succeeds. *)
Example rate_book_zero_accepted :
  fst (Library.rate_book sample_dump library1 1 (of_Z 0) world0) =
    Ok (true,
        Library.with_books library1
          [sample_book 1 "Fiction" (Some (of_Z 0)); sample_book 2 "Essay" None]).
Proof. vm_compute. reflexivity. Qed.

(** On a read-only disk [save_books] answers [False] and leaves the file
    system alone, and [add_book] still returns its record. *)
Example save_books_read_only :
  fst (Library.save_books sample_dump library1 (read_only world0)) = Ok false /\
  fs (snd (Library.save_books sample_dump library1 (read_only world0)))
     "data/books.json" = Absent /\
  fst (Library.add_book sample_dump library1 "Emma" "Jane Austen" "Fiction"
         None None (read_only world0)) =
    Ok (new_book library1 "Emma" "Jane Austen" "Fiction" None None world0,
        Library.with_books library1
          (sample_books ++
           [new_book library1 "Emma" "Jane Austen" "Fiction" None None world0])).
Proof. repeat split; vm_compute; reflexivity. Qed.

(** The statements with a premise, at an input that meets the premise. *)

Lemma identifier_assignment_witness :
  NoDup (ids (Library.books library1)) /\
  NoDup (ids (Library.books
                (agent (run sample_dump script_delete_last
                          (mkRun library1 world0 []))))) /\
  (1 < Library._generate_book_id
         (Library.with_books library1 [sample_book 2 "Essay" None]))%Z.
Proof.
  assert (Hnd : NoDup (ids (Library.books library1))).
  { simpl. repeat constructor; simpl; intuition discriminate. }
  destruct (identifier_assignment sample_dump library1)
    as (_ & _ & Hrun & Hdel).
  split; [exact Hnd |]. split; [apply Hrun; exact Hnd |].
  apply (Hdel 1%Z world0 _ (snd (Library.delete_book sample_dump library1 1 world0))
           eq_refl (sample_book 2 "Essay" None)).
  - simpl. now left.
  - simpl. lia.
Defined.

Lemma rate_book_out_of_range_witness :
  outside_0_5 (of_Z 7) /\
  exists w',
    Library.rate_book sample_dump library1 1 (of_Z 7) world0 =
      (Ok (false, library1), w') /\
    fs w' = fs world0.
Proof.
  assert (H : outside_0_5 (of_Z 7)) by (right; reflexivity).
  split; [exact H |].
  apply (rate_book_out_of_range sample_dump library1 1%Z (of_Z 7) world0 H).
Defined.


Lemma zero_rating_reads_as_unrated_witness :
  (exists self' w',
      Library.rate_book sample_dump library1 1 (of_Z 0) world0 =
        (Ok (true, self'), w') /\
      Library.get_book_by_id self' 1 =
        Some (sample_book 1 "Fiction" (Some (of_Z 0)))) /\
  ~ In (sample_book 1 "Fiction" (Some (of_Z 0))) (Library.rated_books library_zero).
Proof.
  split.
  - destruct (zero_rating_reads_as_unrated sample_dump
                (fun _ => NaN) (fun x _ => x) (fun x => x) library1 1%Z world0)
      as (Hrate & _ & _).
    exact (Hrate (sample_book 1 "Fiction" (Some (of_Z 5))) eq_refl).
  - destruct (zero_rating_reads_as_unrated sample_dump
                (fun _ => NaN) (fun x _ => x) (fun x => x) library_zero 1%Z world0)
      as (_ & Hzero & _).
    apply (Hzero (sample_book 1 "Fiction" (Some (of_Z 0)))).
    + simpl. now left.
    + reflexivity.
Defined.






(* ------------------------------------------------------------------ *)
(** ** Further properties of the library agent *)

Section FirstMatch.
Context {A : Type}.

Lemma find_first_match (p : A -> bool) (l : list A) (b : A) :
  find p l = Some b -> exists l1 l2, first_match p l l1 b l2.
Proof.
  induction l as [|x l IH]; simpl; [discriminate |].
  destruct (p x) eqn:Hx.
  - intros [= <-]. exists [], l. repeat split; [intros y [] | assumption].
  - intros H. destruct (IH H) as (l1 & l2 & Hl & Hl1 & Hb).
    exists (x :: l1), l2. repeat split.
    + simpl. now rewrite Hl.
    + intros y [<- | Hy]; [assumption | now apply Hl1].
    + assumption.
Qed.

Lemma first_match_find (p : A -> bool) l l1 b l2 :
  first_match p l l1 b l2 -> find p l = Some b.
Proof.
  intros (-> & Hl1 & Hb). induction l1 as [|x l1 IH]; simpl.
  - now rewrite Hb.
  - rewrite (Hl1 x (or_introl eq_refl)). apply IH. intros y Hy. apply Hl1. now right.
Qed.

Lemma first_match_index (p : A -> bool) l l1 b l2 :
  first_match p l l1 b l2 -> find_index p l = Some (List.length l1).
Proof.
  intros (-> & Hl1 & Hb). induction l1 as [|x l1 IH]; simpl.
  - now rewrite Hb.
  - rewrite (Hl1 x (or_introl eq_refl)), IH; [reflexivity |].
    intros y Hy. apply Hl1. now right.
Qed.

Lemma set_at_length (f : A -> A) l1 b l2 :
  set_at (List.length l1) f (l1 ++ b :: l2) = l1 ++ f b :: l2.
Proof. induction l1 as [|x l1 IH]; simpl; [reflexivity | now rewrite IH]. Qed.



Lemma first_match_unique (p : A -> bool) l l1 b l2 l1' b' l2' :
  first_match p l l1 b l2 -> first_match p l l1' b' l2' ->
  l1 = l1' /\ b = b' /\ l2 = l2'.
Proof.
  intros (-> & Hl1 & Hb) (Heq & Hl1' & Hb').
  revert l1' Heq Hl1'. induction l1 as [|x l1 IH]; intros [|y l1'] Heq Hl1'; simpl in *.
  - injection Heq as -> ->. auto.
  - injection Heq as -> _. rewrite (Hl1' y (or_introl eq_refl)) in Hb. discriminate.
  - injection Heq as -> _. rewrite (Hl1 b' (or_introl eq_refl)) in Hb'. discriminate.
  - injection Heq as -> Heq. destruct (IH (fun z Hz => Hl1 z (or_intror Hz)) l1' Heq
                                          (fun z Hz => Hl1' z (or_intror Hz)))
      as (-> & -> & ->). auto.
Qed.
End FirstMatch.

Section LibraryMutations.
Variable json_dump : list Library.Book -> string.
Variable json_load : string -> option (list Library.Book).

Lemma save_books_file self w :
  writable w (Library.storage_path self) = true ->
  fs (snd (Library.save_books json_dump self w)) (Library.storage_path self) =
    Content (json_dump (Library.books self)).
Proof.
  intros Hw. rewrite save_books_written by assumption. simpl.
  now rewrite String.eqb_refl.
Qed.

Lemma save_books_other_fs self w :
  writable w (Library.storage_path self) = false ->
  fs (snd (Library.save_books json_dump self w)) = fs w.
Proof. intros Hw. rewrite save_books_failed by assumption. reflexivity. Qed.

Lemma save_books_writable self w :
  writable (snd (Library.save_books json_dump self w)) = writable w.
Proof.
  destruct (writable w (Library.storage_path self)) eqn:Hw.
  - rewrite save_books_written by assumption. reflexivity.
  - rewrite save_books_failed by assumption. reflexivity.
Qed.



Lemma mutate_book_first_match self k f l1 b l2 :
  first_match (Library.has_id k) (Library.books self) l1 b l2 ->
  Library.mutate_book self k f = Library.with_books self (l1 ++ f b :: l2).
Proof.
  intros H. unfold Library.mutate_book. rewrite (first_match_index _ _ _ _ _ H).
  destruct H as (-> & _). now rewrite set_at_length.
Qed.

Lemma update_status_found self k st w b :
  Library.get_book_by_id self k = Some b ->
  let self' := Library.mutate_book self k (Library.set_status st) in
  Library.update_status json_dump self k st w =
    (Ok (true, self'),
     emit (Print "Updated '{title}' status to: {status}")
          (emit (Log INFO "Updated book ID %d status: %s -> %s")
                (snd (Library.save_books json_dump self' w)))).
Proof.
  intros Hb self'. unfold Library.update_status. rewrite Hb. run_io. fold self'.
  destruct (save_books_returns json_dump self' w) as [w' Hs]. rewrite Hs. reflexivity.
Qed.

Lemma update_status_missing self k st w :
  Library.get_book_by_id self k = None ->
  Library.update_status json_dump self k st w =
    (Ok (false, self),
     emit (Print "Book ID {book_id} not found")
          (emit (Log WARNING "Book ID %d not found for status update") w)).
Proof. intros Hb. unfold Library.update_status. now rewrite Hb. Qed.

Lemma rate_book_found self k r w b :
  (float_le (of_Z 0) r && float_le r (of_Z 5))%bool = true ->
  Library.get_book_by_id self k = Some b ->
  let self' := Library.mutate_book self k (Library.set_rating r) in
  Library.rate_book json_dump self k r w =
    (Ok (true, self'),
     emit (Print "Rated '{title}': {rating}")
          (emit (Log INFO "Rated book ID %d: %f stars")
                (snd (Library.save_books json_dump self' w)))).
Proof.
  intros Hr Hb self'. unfold Library.rate_book. rewrite Hr, Hb. cbn [negb].
  run_io. fold self'.
  destruct (save_books_returns json_dump self' w) as [w' Hs]. rewrite Hs. reflexivity.
Qed.

Lemma rate_book_missing self k r w :
  (float_le (of_Z 0) r && float_le r (of_Z 5))%bool = true ->
  Library.get_book_by_id self k = None ->
  Library.rate_book json_dump self k r w =
    (Ok (false, self),
     emit (Print "Book ID {book_id} not found")
          (emit (Log WARNING "Book ID %d not found for rating") w)).
Proof. intros Hr Hb. unfold Library.rate_book. now rewrite Hr, Hb. Qed.

Lemma rate_book_rejected self k r w :
  (float_le (of_Z 0) r && float_le r (of_Z 5))%bool = false ->
  Library.rate_book json_dump self k r w =
    (Ok (false, self),
     emit (Print "Rating must be between 0 and 5")
          (emit (Log WARNING "Invalid rating attempted: %f") w)).
Proof. intros Hr. unfold Library.rate_book. now rewrite Hr. Qed.



End LibraryMutations.

Section LibraryInvariants.
Variable json_dump : list Library.Book -> string.
Variable json_load : string -> option (list Library.Book).

Lemma rating_in_range_set_status st b :
  rating_in_range b -> rating_in_range (Library.set_status st b).
Proof. intros H. exact H. Qed.

Lemma Forall_first_match_update {A} (P : A -> Prop) (p : A -> bool) l l1 b l2 b' :
  first_match p l l1 b l2 -> Forall P l -> P b' -> Forall P (l1 ++ b' :: l2).
Proof.
  intros (-> & _) H Hb'. apply Forall_app in H. destruct H as [H1 H2].
  apply Forall_app. split; [assumption |]. inversion H2; subst. now constructor.
Qed.

Lemma Forall_pop {A} (P : A -> Prop) i (l : list A) : Forall P l -> Forall P (pop i l).
Proof.
  rewrite !Forall_forall. intros H x Hx. apply H. eapply In_pop. eassumption.
Qed.

(** X4. The range of the ratings is an invariant of the agent: when
    every rating present in the collection lies between 0 and 5, it
    still does after [add_book], [rate_book], [update_status] and
    [delete_book], whatever their arguments. *)
Theorem ratings_stay_in_range :
  forall self,
    Forall rating_in_range (Library.books self) ->
    (forall t a g y i w,
        Forall rating_in_range
          (Library.books (agent_after (Library.add_book json_dump self t a g y i w) self))) /\
    (forall k r w,
        Forall rating_in_range
          (Library.books (agent_after (Library.rate_book json_dump self k r w) self))) /\
    (forall k st w,
        Forall rating_in_range
          (Library.books (agent_after (Library.update_status json_dump self k st w) self))) /\
    (forall k w,
        Forall rating_in_range
          (Library.books (agent_after (Library.delete_book json_dump self k w) self))).
Proof.
  intros self Hinv. split; [| split; [| split]].
  - intros t a g y i w. rewrite add_book_returns. simpl.
    apply Forall_app. split; [assumption |]. constructor; [exact I | constructor].
  - intros k r w.
    destruct (float_le (of_Z 0) r && float_le r (of_Z 5))%bool eqn:Hr.
    + destruct (Library.get_book_by_id self k) as [b |] eqn:Hb.
      * rewrite (rate_book_found json_dump _ _ _ _ _ Hr Hb). simpl.
        destruct (find_first_match _ _ _ Hb) as (l1 & l2 & Hfm).
        rewrite (mutate_book_first_match _ _ _ _ _ _ Hfm). simpl.
        apply (Forall_first_match_update _ _ _ _ _ _ _ Hfm Hinv).
        apply andb_true_iff in Hr. exact Hr.
      * rewrite (rate_book_missing json_dump _ _ _ _ Hr Hb). exact Hinv.
    + rewrite (rate_book_rejected json_dump _ _ _ _ Hr). exact Hinv.
  - intros k st w. destruct (Library.get_book_by_id self k) as [b |] eqn:Hb.
    + rewrite (update_status_found json_dump _ _ _ _ _ Hb). simpl.
      destruct (find_first_match _ _ _ Hb) as (l1 & l2 & Hfm).
      rewrite (mutate_book_first_match _ _ _ _ _ _ Hfm). simpl.
      apply (Forall_first_match_update _ _ _ _ _ _ _ Hfm Hinv).
      apply rating_in_range_set_status.
      destruct Hfm as (Hl & _). rewrite Hl in Hinv. apply Forall_app in Hinv.
      destruct Hinv as [_ H2]. now inversion H2.
    + rewrite (update_status_missing json_dump _ _ _ _ Hb). exact Hinv.
  - intros k w.
    destruct (find_index (Library.has_id k) (Library.books self)) as [i |] eqn:Hi.
    + rewrite (delete_book_found json_dump _ _ _ _ Hi). simpl.
      now apply Forall_pop.
    + rewrite (delete_book_missing json_dump _ _ _ Hi). exact Hinv.
Qed.

Lemma init_reads path w text bs :
  fs w path = Content text -> json_load text = Some bs ->
  fst (Library.init json_load path w) = Ok (Library.mkAgent path bs).
Proof.
  intros Hfs Hload. unfold Library.init. run_io.
  rewrite (load_books_content json_load (Library.mkAgent path []) w text Hfs).
  rewrite Hload. reflexivity.
Qed.

Lemma with_books_eta self : Library.with_books self (Library.books self) = self.
Proof. now destruct self. Qed.

(** X5. What a mutation saved is what a restart finds. On a path that
    can be written, and when the codec reads back what it writes for the
    collection the call leaves, a fresh [LibraryAgent] made on the same
    path right after [add_book], or after an [update_status],
    [rate_book] or [delete_book] that returned [True], is equal to the
    agent the call left behind. *)
Theorem restart_after_mutation :
  forall self w,
    writable w (Library.storage_path self) = true ->
    (forall t a g y i,
        let r := Library.add_book json_dump self t a g y i w in
        json_load (json_dump (Library.books (agent_after r self))) =
          Some (Library.books (agent_after r self)) ->
        fst (Library.init json_load (Library.storage_path self) (snd r)) =
          Ok (agent_after r self)) /\
    (forall k st,
        let r := Library.update_status json_dump self k st w in
        json_load (json_dump (Library.books (agent_after r self))) =
          Some (Library.books (agent_after r self)) ->
        succeeded r = true ->
        fst (Library.init json_load (Library.storage_path self) (snd r)) =
          Ok (agent_after r self)) /\
    (forall k x,
        let r := Library.rate_book json_dump self k x w in
        json_load (json_dump (Library.books (agent_after r self))) =
          Some (Library.books (agent_after r self)) ->
        succeeded r = true ->
        fst (Library.init json_load (Library.storage_path self) (snd r)) =
          Ok (agent_after r self)) /\
    (forall k,
        let r := Library.delete_book json_dump self k w in
        json_load (json_dump (Library.books (agent_after r self))) =
          Some (Library.books (agent_after r self)) ->
        succeeded r = true ->
        fst (Library.init json_load (Library.storage_path self) (snd r)) =
          Ok (agent_after r self)).
Proof.
  intros self w Hw.
  assert (Hsaved : forall self' e1 e2,
             Library.storage_path self' = Library.storage_path self ->
             json_load (json_dump (Library.books self')) =
               Some (Library.books self') ->
             fst (Library.init json_load (Library.storage_path self)
                    (emit e2 (emit e1 (snd (Library.save_books json_dump self' w))))) =
             Ok self').
  { intros self' e1 e2 Hp Hcodec.
    rewrite (init_reads _ _ (json_dump (Library.books self')) (Library.books self')).
    - destruct self'. simpl in *. now subst.
    - rewrite !fs_emit, <- Hp. apply save_books_file. now rewrite Hp.
    - exact Hcodec. }
  split; [| split; [| split]].
  - intros t a g y i. cbv zeta. rewrite add_book_returns. simpl.
    intros Hcodec. now rewrite Hsaved.
  - intros k st. cbv zeta.
    destruct (Library.get_book_by_id self k) as [b |] eqn:Hb.
    + rewrite (update_status_found json_dump _ _ _ _ _ Hb). simpl. intros Hcodec _.
      rewrite Hsaved; [reflexivity | | exact Hcodec]. unfold Library.mutate_book.
      now destruct (find_index _ _).
    + rewrite (update_status_missing json_dump _ _ _ _ Hb). simpl. discriminate.
  - intros k x. cbv zeta.
    destruct (float_le (of_Z 0) x && float_le x (of_Z 5))%bool eqn:Hr.
    + destruct (Library.get_book_by_id self k) as [b |] eqn:Hb.
      * rewrite (rate_book_found json_dump _ _ _ _ _ Hr Hb). simpl. intros Hcodec _.
        rewrite Hsaved; [reflexivity | | exact Hcodec]. unfold Library.mutate_book.
        now destruct (find_index _ _).
      * rewrite (rate_book_missing json_dump _ _ _ _ Hr Hb). simpl. discriminate.
    + rewrite (rate_book_rejected json_dump _ _ _ _ Hr). simpl. discriminate.
  - intros k. cbv zeta.
    destruct (find_index (Library.has_id k) (Library.books self)) as [i |] eqn:Hi.
    + rewrite (delete_book_found json_dump _ _ _ _ Hi). simpl. intros Hcodec _.
      now rewrite Hsaved.
    + rewrite (delete_book_missing json_dump _ _ _ Hi). simpl. discriminate.
Qed.
End LibraryInvariants.

(* ------------------------------------------------------------------ *)
(** ** Facts about strings *)

Lemma is_space_lower c : is_space (lower_ascii c) = is_space c.
Proof. destruct c as [[] [] [] [] [] [] [] []]; reflexivity. Qed.

Lemma lower_lstrip s : lower (lstrip s) = lstrip (lower s).
Proof.
  induction s as [|c s IH]; simpl; [reflexivity |].
  rewrite is_space_lower. destruct (is_space c); [assumption | reflexivity].
Qed.

Lemma lower_rstrip s : lower (rstrip s) = rstrip (lower s).
Proof.
  induction s as [|c s IH]; simpl; [reflexivity |].
  rewrite <- IH, is_space_lower. destruct (rstrip s); simpl.
  - now destruct (is_space c).
  - reflexivity.
Qed.

Lemma lower_strip s : lower (strip s) = strip (lower s).
Proof. unfold strip. now rewrite lower_rstrip, lower_lstrip. Qed.

Lemma prefix_refl s : String.prefix s s = true.
Proof.
  induction s as [|c s IH]; simpl; [reflexivity |].
  destruct (ascii_dec c c); [assumption | congruence].
Qed.

Lemma prefix_empty s : String.prefix "" s = true.
Proof. now destruct s. Qed.

Lemma contains_unfold needle hay :
  contains needle hay =
    (String.prefix needle hay ||
     match hay with
     | String _ hay' => contains needle hay'
     | EmptyString => false
     end)%bool.
Proof. destruct hay; reflexivity. Qed.

Lemma contains_refl s : contains s s = true.
Proof. rewrite contains_unfold, prefix_refl. reflexivity. Qed.

Lemma contains_empty s : contains "" s = true.
Proof. destruct s; reflexivity. Qed.


(** [contains] is the occurrence of one string inside another. *)
Lemma prefix_append s t : String.prefix s (s ++ t) = true.
Proof.
  induction s as [|c s IH]; simpl; [apply prefix_empty |].
  destruct (ascii_dec c c); [assumption | congruence].
Qed.

Lemma prefix_split s t : String.prefix s t = true -> exists u, t = (s ++ u)%string.
Proof.
  revert t. induction s as [|c s IH]; intros t; simpl.
  - intros _. exists t. reflexivity.
  - destruct t as [|d t]; simpl; [discriminate |].
    destruct (ascii_dec c d) as [-> | _]; [| discriminate].
    intros H. destruct (IH t H) as [u ->]. exists u. reflexivity.
Qed.

Lemma contains_spec needle hay :
  contains needle hay = true <->
  exists pre post, hay = (pre ++ needle ++ post)%string.
Proof.
  split.
  - induction hay as [|c hay IH]; rewrite contains_unfold.
    + rewrite orb_false_r. intros H. apply prefix_split in H.
      destruct H as [u Hu]. exists "", u. exact Hu.
    + intros H. apply orb_true_iff in H. destruct H as [H | H].
      * apply prefix_split in H. destruct H as [u Hu]. exists "", u. exact Hu.
      * destruct (IH H) as (pre & post & ->). exists (String c pre), post. reflexivity.
  - intros (pre & post & ->). induction pre as [|c pre IH].
    + rewrite contains_unfold. change ("" ++ needle ++ post)%string
        with (needle ++ post)%string. now rewrite prefix_append.
    + change (String c pre ++ needle ++ post)%string
        with (String c (pre ++ needle ++ post)%string).
      rewrite contains_unfold. cbv beta iota. rewrite IH. apply orb_true_r.
Qed.

(* ------------------------------------------------------------------ *)
(** ** Listing, searching and grouping books *)

Section LibraryQueries.
Variable json_dump : list Library.Book -> string.
Variable float_sum : list pyfloat -> pyfloat.
Variable float_div : pyfloat -> nat -> pyfloat.
Variable round2 : pyfloat -> pyfloat.
Variable float_str : pyfloat -> string.

Lemma list_books_returns self f w :
  fst (Library.list_books self f w) =
    Ok (if String.eqb f "all" then Library.books self
        else filter (fun book => String.eqb (Library.status book) f)
                    (Library.books self)).
Proof.
  unfold Library.list_books. now destruct (String.eqb f "all").
Qed.

Lemma status_counts l :
  (Library.count_status "read" l + Library.count_status "reading" l +
   Library.count_status "unread" l <= List.length l)%nat /\
  ((Library.count_status "read" l + Library.count_status "reading" l +
    Library.count_status "unread" l)%nat = List.length l <->
   Forall status_valid l).
Proof.
  unfold Library.count_status. induction l as [|b l [IHle IHeq]]; simpl.
  - split; [lia |]. split; [constructor | reflexivity].
  - assert (Hv : status_valid b <->
                 String.eqb (Library.status b) "unread" = true \/
                 String.eqb (Library.status b) "reading" = true \/
                 String.eqb (Library.status b) "read" = true).
    { unfold status_valid, Main.valid_status. rewrite !orb_true_iff.
      apply or_assoc. }
    destruct (String.eqb (Library.status b) "read") eqn:E1;
      destruct (String.eqb (Library.status b) "reading") eqn:E2;
      destruct (String.eqb (Library.status b) "unread") eqn:E3;
      try (apply String.eqb_eq in E1); try (apply String.eqb_eq in E2);
      try (apply String.eqb_eq in E3); try congruence; simpl.
    + split; [lia |]. rewrite Forall_cons_iff, Hv, <- IHeq. split.
      * intros H. split; [auto | lia].
      * intros [_ H]. lia.
    + split; [lia |]. rewrite Forall_cons_iff, Hv, <- IHeq. split.
      * intros H. split; [auto | lia].
      * intros [_ H]. lia.
    + split; [lia |]. rewrite Forall_cons_iff, Hv, <- IHeq. split.
      * intros H. split; [auto | lia].
      * intros [_ H]. lia.
    + split; [lia |]. rewrite Forall_cons_iff, Hv. split.
      * intros H. lia.
      * intros [[H | [H | H]] _]; discriminate.
Qed.

(** X6. [list_books] with ["all"] returns the collection; with another
    filter it never raises, and the three counts of [get_statistics] are
    the lengths of what [list_books] returns for ["read"], ["reading"]
    and ["unread"]. The three counts never exceed the total, and they
    add up to the total exactly when every book has one of these three
    statuses. *)
Theorem statistics_count_the_listings :
  forall self w,
    let stats := Library.get_statistics float_sum float_div round2 self in
    fst (Library.list_books self "all" w) = Ok (Library.books self) /\
    Library.total_books stats = List.length (Library.books self) /\
    (exists lr lg lu,
        fst (Library.list_books self "read" w) = Ok lr /\
        fst (Library.list_books self "reading" w) = Ok lg /\
        fst (Library.list_books self "unread" w) = Ok lu /\
        Library.read stats = List.length lr /\
        Library.reading stats = List.length lg /\
        Library.unread stats = List.length lu) /\
    (Library.read stats + Library.reading stats + Library.unread stats <=
     Library.total_books stats)%nat /\
    ((Library.read stats + Library.reading stats + Library.unread stats)%nat =
     Library.total_books stats <->
     Forall status_valid (Library.books self)).
Proof.
  intros self w stats. split; [reflexivity |]. split; [reflexivity |].
  split.
  - eexists _, _, _. rewrite !list_books_returns. simpl.
    repeat split; reflexivity.
  - exact (status_counts (Library.books self)).
Qed.

Lemma search_books_returns self q key w :
  fst (Library.search_books float_str self q key w) =
    Ok (filter (fun book => contains (strip (lower q))
                              (Library.search_text float_str key book))
               (Library.books self)).
Proof. reflexivity. Qed.



(** X8. A book that was just added is found by [search_books] under its
    title, its author and its genre as they were typed. *)
Theorem added_book_is_found :
  forall self t a g y i w,
    exists book self' w',
      Library.add_book json_dump self t a g y i w = (Ok (book, self'), w') /\
      (forall w1, exists results,
          fst (Library.search_books float_str self' t "title" w1) = Ok results /\
          In book results) /\
      (forall w1, exists results,
          fst (Library.search_books float_str self' a "author" w1) = Ok results /\
          In book results) /\
      (forall w1, exists results,
          fst (Library.search_books float_str self' g "genre" w1) = Ok results /\
          In book results).
Proof.
  intros self t a g y i w. eexists _, _, _.
  split; [apply add_book_returns |].
  assert (Hin : In (new_book self t a g y i w)
                   (Library.books self ++ [new_book self t a g y i w]))
    by (apply in_or_app; right; now left).
  repeat split; intros w1; eexists; (split; [apply search_books_returns |]);
    simpl Library.books; apply filter_In; (split; [exact Hin |]);
    unfold Library.search_text; simpl; rewrite lower_strip; apply contains_refl.
Qed.
End LibraryQueries.

Section Grouping.
Variable key : Library.Book -> string.

Lemma group_append_keys k b org :
  (In k (map fst org) ->
   map fst (Library.group_append k b org) = map fst org) /\
  (~ In k (map fst org) ->
   map fst (Library.group_append k b org) = map fst org ++ [k]).
Proof.
  induction org as [|[k' grp] org [IH1 IH2]]; simpl.
  - split; [intros [] | reflexivity].
  - destruct (String.eqb k' k) eqn:E; simpl.
    + apply String.eqb_eq in E. split; [reflexivity | intros H; exfalso; auto].
    + apply String.eqb_neq in E. split.
      * intros [H | H]; [contradiction | now rewrite IH1].
      * intros H. rewrite IH2; [reflexivity | auto].
Qed.

Lemma group_append_In k b org g group :
  NoDup (map fst org) ->
  (In (g, group) (Library.group_append k b org) <->
   (g <> k /\ In (g, group) org) \/
   (g = k /\ ((exists old, In (k, old) org /\ group = old ++ [b]) \/
              (~ In k (map fst org) /\ group = [b])))).
Proof.
  induction org as [|[k' grp] org IH]; simpl; intros Hnd.
  - split.
    + intros [[= <- <-] | []]. right. split; [reflexivity |]. right. auto.
    + intros [[_ []] | [-> [[old [[] _]] | [_ ->]]]]. now left.
  - inversion Hnd as [|? ? Hnot Hnd']; subst. specialize (IH Hnd').
    destruct (String.eqb k' k) eqn:E; simpl.
    + apply String.eqb_eq in E. subst k'. split.
      * intros [[= <- <-] | H].
        -- right. split; [reflexivity |]. left. exists grp. auto.
        -- left. split; [| now right]. intros ->. apply Hnot.
           apply in_map_iff. exists (k, group). auto.
      * intros [[Hg [[= -> <-] | H]] | [-> [[old [[[= <-] | H] ->]] | [H _]]]].
        -- contradiction.
        -- now right.
        -- now left.
        -- exfalso. apply Hnot. apply in_map_iff. exists (k, old). auto.
        -- exfalso. auto.
    + apply String.eqb_neq in E. rewrite IH. split.
      * intros [[= <- <-] | [[Hg H] | [-> [[old [H ->]] | [H ->]]]]].
        -- left. split; [assumption | now left].
        -- left. split; [assumption | now right].
        -- right. split; [reflexivity |]. left. exists old. auto.
        -- right. split; [reflexivity |]. right. split; [| reflexivity].
           intros [H' | H']; [contradiction | contradiction].
      * intros [[Hg [[= <- <-] | H]] | [-> [[old [[[= -> _] | H] ->]] | [H ->]]]].
        -- now left.
        -- right. left. auto.
        -- contradiction.
        -- right. right. split; [reflexivity |]. left. exists old. auto.
        -- right. right. split; [reflexivity |]. right. split; [auto | reflexivity].
Qed.

Lemma filed_under_app g l b :
  filed_under key g (l ++ [b]) =
    filed_under key g l ++ (if String.eqb (key b) g then [b] else []).
Proof. unfold filed_under. rewrite filter_app. reflexivity. Qed.

Lemma groups_of_step l org b :
  groups_of key l org ->
  groups_of key (l ++ [b]) (Library.group_append (key b) b org).
Proof.
  intros [Hnd Hin]. split.
  - destruct (group_append_keys (key b) b org) as [H1 H2].
    destruct (in_dec string_dec (key b) (map fst org)) as [Hk | Hk].
    + now rewrite H1.
    + rewrite H2 by assumption. apply NoDup_rev in Hnd.
      rewrite <- (rev_involutive (_ ++ _)). apply NoDup_rev.
      rewrite rev_app_distr. simpl. constructor; [| assumption].
      now rewrite <- in_rev.
  - intros g group. rewrite (group_append_In _ _ _ _ _ Hnd), filed_under_app.
    destruct (String.eqb (key b) g) eqn:E.
    + apply String.eqb_eq in E. subst g. split.
      * intros [[Hg _] | [_ [[old [Hold ->]] | [Hk ->]]]]; [congruence | |].
        -- apply Hin in Hold. destruct Hold as [-> _].
           split; [reflexivity |]. now destruct (filed_under key (key b) l).
        -- destruct (filed_under key (key b) l) as [|x fl] eqn:Hfl.
           ++ split; [reflexivity | discriminate].
           ++ exfalso. apply Hk. apply in_map_iff. exists (key b, x :: fl).
              split; [reflexivity |]. apply Hin. split; [auto | discriminate].
      * intros [-> _]. right. split; [reflexivity |].
        destruct (filed_under key (key b) l) as [|x fl] eqn:Hfl.
        -- right. split; [| reflexivity]. intros Hk. apply in_map_iff in Hk.
           destruct Hk as [[k' grp] [Hk' Hgrp]]. simpl in Hk'. subst k'.
           apply Hin in Hgrp. destruct Hgrp as [-> Hne]. now rewrite Hfl in Hne.
        -- left. exists (x :: fl). split; [| reflexivity].
           apply Hin. split; [auto | discriminate].
    + apply String.eqb_neq in E. rewrite app_nil_r. rewrite <- Hin. split.
      * intros [[_ H] | [Hg _]]; [assumption | congruence].
      * intros H. left. split; [congruence | assumption].
Qed.

Lemma groups_of_fold l done org :
  groups_of key done org ->
  groups_of key (done ++ l)
    (fold_left (fun organized book =>
                  Library.group_append (key book) book organized) l org).
Proof.
  revert done org. induction l as [|b l IH]; intros done org H; simpl.
  - now rewrite app_nil_r.
  - replace (done ++ b :: l) with ((done ++ [b]) ++ l)
      by (now rewrite <- app_assoc).
    apply IH. now apply groups_of_step.
Qed.

Lemma organize_by_groups l : groups_of key l (Library.organize_by key l).
Proof.
  apply (groups_of_fold l [] []). split; [constructor |].
  intros g group. split; [intros [] | intros [-> H]; now contradiction H].
Qed.

Lemma groups_of_keys l org g :
  groups_of key l org -> (In g (map fst org) <-> In g (map key l)).
Proof.
  intros [_ Hin]. rewrite !in_map_iff. split.
  - intros [[g' grp] [Hg Hgrp]]. simpl in Hg. subst g'.
    apply Hin in Hgrp. destruct Hgrp as [-> Hne].
    destruct (filed_under key g l) as [|x fl] eqn:Hfl; [congruence |].
    assert (Hx : In x (filed_under key g l)) by (rewrite Hfl; now left).
    apply filter_In in Hx. destruct Hx as [Hx Hk]. apply String.eqb_eq in Hk.
    exists x. auto.
  - intros [b [Hk Hb]]. exists (g, filed_under key g l). split; [reflexivity |].
    apply Hin. split; [reflexivity |]. intros Hnil.
    assert (Hx : In b (filed_under key g l)).
    { apply filter_In. split; [assumption | now apply String.eqb_eq]. }
    now rewrite Hnil in Hx.
Qed.

Lemma groups_of_length l org :
  groups_of key l org ->
  List.length org = List.length (nodup string_dec (map key l)).
Proof.
  intros H. rewrite <- (length_map fst org). apply Permutation_length.
  apply NoDup_Permutation.
  - apply H.
  - apply NoDup_nodup.
  - intros g. rewrite nodup_In. now apply groups_of_keys.
Qed.
End Grouping.

Section GroupingClaims.
Variable float_sum : list pyfloat -> pyfloat.
Variable float_div : pyfloat -> nat -> pyfloat.
Variable round2 : pyfloat -> pyfloat.

(** X9. [organize_by_genre] and [organize_by_author] never raise and
    return a grouping of the collection: no genre (author) occurs twice
    as a key, the group under a key holds exactly the books with that
    genre (author), in the order of the collection, and is never empty.
    So every book is in the group of its own genre (author), and the
    number of groups is the number of distinct genres (authors) that
    [get_statistics] reports. *)
Theorem organize_groups_the_collection :
  forall self w,
    exists by_genre by_author,
      fst (Library.organize_by_genre self w) = Ok by_genre /\
      fst (Library.organize_by_author self w) = Ok by_author /\
      groups_of Library.genre (Library.books self) by_genre /\
      groups_of Library.author (Library.books self) by_author /\
      (forall b, In b (Library.books self) ->
         (exists group, In (Library.genre b, group) by_genre /\ In b group) /\
         (exists group, In (Library.author b, group) by_author /\ In b group)) /\
      List.length by_genre =
        Library.unique_genres
          (Library.get_statistics float_sum float_div round2 self) /\
      List.length by_author =
        Library.unique_authors
          (Library.get_statistics float_sum float_div round2 self).
Proof.
  intros self w. eexists _, _.
  split; [reflexivity |]. split; [reflexivity |].
  pose proof (organize_by_groups Library.genre (Library.books self)) as Hg.
  pose proof (organize_by_groups Library.author (Library.books self)) as Ha.
  split; [exact Hg |]. split; [exact Ha |]. split; [| split].
  - intros b Hb.
    assert (Hfiled : forall key, In b (filed_under key (key b) (Library.books self))).
    { intros key. apply filter_In. split; [assumption | apply String.eqb_refl]. }
    split; eexists; (split; [| apply Hfiled]).
    + apply Hg. split; [reflexivity |]. intros Hnil.
      specialize (Hfiled Library.genre). now rewrite Hnil in Hfiled.
    + apply Ha. split; [reflexivity |]. intros Hnil.
      specialize (Hfiled Library.author). now rewrite Hnil in Hfiled.
  - exact (groups_of_length _ _ _ Hg).
  - exact (groups_of_length _ _ _ Ha).
Qed.
End GroupingClaims.

(* ------------------------------------------------------------------ *)
(** ** Reading numbers and dates *)

Lemma is_digit_not_space c : is_digit c = true -> is_space c = false.
Proof.
  destruct c as [[] [] [] [] [] [] [] []]; vm_compute; intros H;
    try reflexivity; discriminate H.
Qed.

Lemma is_digit_not_sign c : is_digit c = true -> c <> "+"%char /\ c <> "-"%char.
Proof.
  destruct c as [[] [] [] [] [] [] [] []]; intros H; split; intros E;
    try discriminate E; vm_compute in H; discriminate H.
Qed.

Lemma all_digits_no_space s : all_digits s = true -> no_space s = true.
Proof.
  induction s as [|c s IH]; simpl; [reflexivity |].
  intros H. apply andb_true_iff in H. destruct H as [Hc Hs].
  now rewrite (is_digit_not_space c Hc), IH.
Qed.

Lemma lstrip_no_space s : no_space s = true -> lstrip s = s.
Proof.
  destruct s as [|c s]; simpl; [reflexivity |].
  intros H. apply andb_true_iff in H. destruct H as [Hc _].
  apply negb_true_iff in Hc. now rewrite Hc.
Qed.

Lemma rstrip_no_space s : no_space s = true -> rstrip s = s.
Proof.
  induction s as [|c s IH]; simpl; [reflexivity |].
  intros H. apply andb_true_iff in H. destruct H as [Hc Hs].
  apply negb_true_iff in Hc. rewrite (IH Hs), Hc. now destruct s.
Qed.

Lemma strip_no_space s : no_space s = true -> strip s = s.
Proof.
  intros H. unfold strip. rewrite lstrip_no_space by assumption.
  now apply rstrip_no_space.
Qed.

Lemma is_c_space_is_space c : is_space c = false -> is_c_space c = false.
Proof.
  destruct c as [[] [] [] [] [] [] [] []]; vm_compute; intros H;
    try reflexivity; discriminate H.
Qed.

Lemma int_spaces_no_space s :
  no_space s = true -> drop_trailing_spaces (skip_spaces s) = s.
Proof.
  intros H. assert (Hl : skip_spaces s = s).
  { destruct s as [|c s]; simpl; [reflexivity |].
    simpl in H. apply andb_true_iff in H. destruct H as [Hc _].
    apply negb_true_iff in Hc. now rewrite (is_c_space_is_space c Hc). }
  rewrite Hl. clear Hl. induction s as [|c s IH]; simpl; [reflexivity |].
  simpl in H. apply andb_true_iff in H. destruct H as [Hc Hs].
  apply negb_true_iff in Hc.
  rewrite (IH Hs), (is_c_space_is_space c Hc). now destruct s.
Qed.

Lemma int_digits_all_digits s acc after :
  all_digits s = true -> (after = true \/ s <> "") ->
  int_digits acc after s =
    Some (fold_left (fun a c => (10 * a + digit_value c)%Z)
                    (list_ascii_of_string s) acc).
Proof.
  revert acc after. induction s as [|c s IH]; intros acc after Hd Hne; simpl.
  - destruct Hne as [-> | Hne]; [reflexivity | congruence].
  - simpl in Hd. apply andb_true_iff in Hd. destruct Hd as [Hc Hs].
    rewrite Hc. apply IH; [assumption | now left].
Qed.

Lemma count_digits_all_digits s :
  all_digits s = true -> count_digits s = String.length s.
Proof.
  induction s as [|c s IH]; simpl; [reflexivity |].
  intros H. apply andb_true_iff in H. destruct H as [Hc Hs].
  now rewrite Hc, IH.
Qed.

Lemma py_int_of_digits s :
  isdigit s = true -> (String.length s <= int_max_str_digits)%nat ->
  py_int s = Some (number_of_digits s).
Proof.
  intros H Hlen. assert (Hd : all_digits s = true /\ s <> "").
  { destruct s; [discriminate | split; [exact H | discriminate]]. }
  destruct Hd as [Hd Hne]. unfold py_int.
  rewrite (int_spaces_no_space s (all_digits_no_space s Hd)).
  assert (Hgo : int_literal s = Some (number_of_digits s)).
  { unfold int_literal. rewrite (count_digits_all_digits s Hd).
    apply Nat.leb_le in Hlen. rewrite Hlen.
    apply int_digits_all_digits; [assumption | now right]. }
  destruct s as [|c s]; [congruence |].
  simpl in Hd. apply andb_true_iff in Hd. destruct Hd as [Hc Hs].
  destruct (is_digit_not_sign c Hc) as [Hplus Hminus].
  rewrite <- Hgo. clear Hgo Hc Hlen H.
  destruct c as [[] [] [] [] [] [] [] []]; try reflexivity; exfalso;
    [apply Hplus | apply Hminus]; reflexivity.
Qed.

Lemma py_int_too_long s :
  isdigit s = true -> (int_max_str_digits < String.length s)%nat ->
  py_int s = None.
Proof.
  intros H Hlen. assert (Hd : all_digits s = true /\ s <> "").
  { destruct s; [discriminate | split; [exact H | discriminate]]. }
  destruct Hd as [Hd Hne]. unfold py_int.
  rewrite (int_spaces_no_space s (all_digits_no_space s Hd)).
  assert (Hgo : int_literal s = None).
  { unfold int_literal. rewrite (count_digits_all_digits s Hd).
    apply Nat.leb_gt in Hlen. now rewrite Hlen. }
  destruct s as [|c s]; [congruence |].
  simpl in Hd. apply andb_true_iff in Hd. destruct Hd as [Hc Hs].
  destruct (is_digit_not_sign c Hc) as [Hplus Hminus].
  rewrite <- Hgo. clear Hgo Hc Hlen H.
  destruct c as [[] [] [] [] [] [] [] []]; try reflexivity; exfalso;
    [apply Hplus | apply Hminus]; reflexivity.
Qed.

Lemma number_of_digits_nonneg s : (0 <= number_of_digits s)%Z.
Proof.
  unfold number_of_digits.
  assert (H : forall l acc, (0 <= acc)%Z ->
             (0 <= fold_left (fun a c => (10 * a + digit_value c)%Z) l acc)%Z).
  { induction l as [|c l IH]; intros acc Hacc; cbn [fold_left]; [assumption |].
    apply IH. unfold digit_value.
    pose proof (Nat2Z.is_nonneg (nat_of_ascii c - 48)). lia. }
  apply H. lia.
Qed.

Lemma split_from_no_space cur tok :
  no_space tok = true -> (cur ++ tok)%string <> "" ->
  split_from cur tok = [(cur ++ tok)%string].
Proof.
  revert cur. induction tok as [|c tok IH]; intros cur Hns Hne; simpl.
  - assert (E : (cur ++ "")%string = cur).
    { clear. induction cur; simpl; [reflexivity | now rewrite IHcur]. }
    rewrite E in *. destruct cur; [congruence | reflexivity].
  - simpl in Hns. apply andb_true_iff in Hns. destruct Hns as [Hc Hs].
    apply negb_true_iff in Hc. rewrite Hc.
    assert (E : ((cur ++ String c "") ++ tok)%string = (cur ++ String c tok)%string).
    { clear. induction cur; simpl; [reflexivity | now rewrite IHcur]. }
    rewrite IH; [now rewrite E | assumption |].
    rewrite E. destruct cur; discriminate.
Qed.

Lemma last_item_cons {A} (x : A) l : l <> [] -> last_item (x :: l) = last_item l.
Proof. destruct l; [congruence | reflexivity]. Qed.

Lemma last_item_split pre cur tok :
  no_space tok = true -> tok <> "" ->
  last_item (split_from cur (pre ++ String " " tok)) = Some tok.
Proof.
  intros Hns Hne.
  assert (Htok : split_from "" tok = [tok]).
  { apply (split_from_no_space "" tok Hns). exact Hne. }
  revert cur. induction pre as [|c pre IH]; intros cur; simpl.
  - change (is_space " ") with true. cbv iota.
    destruct cur; rewrite Htok; reflexivity.
  - destruct (is_space c).
    + destruct cur as [|d cur]; [apply IH |].
      rewrite last_item_cons; [apply IH |].
      intros Hnil. specialize (IH ""). rewrite Hnil in IH. discriminate.
    + apply IH.
Qed.

(** X10. The year [add_book_from_api] reads off a publication date is
    the number written by its last word: for a date that ends, after a
    space, in a run of decimal digits (["June 1965"]), and for a date
    that is nothing but such a run, it is that number, as long as the
    run is not longer than the interpreter converts; for a longer run,
    and for a date without any word, it is absent. *)
Theorem publish_year_trailing_number :
  (forall pre digits,
      isdigit digits = true ->
      (String.length digits <= int_max_str_digits)%nat ->
      Library.publish_year (pre ++ String " " digits) =
        Some (number_of_digits digits) /\
      Library.publish_year digits = Some (number_of_digits digits) /\
      (0 <= number_of_digits digits)%Z) /\
  (forall pre digits,
      isdigit digits = true ->
      (int_max_str_digits < String.length digits)%nat ->
      Library.publish_year (pre ++ String " " digits) = None) /\
  (forall blank, split blank = [] -> Library.publish_year blank = None).
Proof.
  assert (Hshape : forall digits, isdigit digits = true ->
             all_digits digits = true /\ digits <> "").
  { intros digits Hd. destruct digits; [discriminate |].
    split; [exact Hd | discriminate]. }
  split; [| split].
  - intros pre digits Hd Hlen. destruct (Hshape digits Hd) as [Hall Hne].
    pose proof (all_digits_no_space _ Hall) as Hns.
    unfold Library.publish_year, split. split; [| split].
    + rewrite (last_item_split pre "" digits Hns Hne). now apply py_int_of_digits.
    + rewrite (split_from_no_space "" digits Hns Hne). simpl.
      now apply py_int_of_digits.
    + apply number_of_digits_nonneg.
  - intros pre digits Hd Hlen. destruct (Hshape digits Hd) as [Hall Hne].
    pose proof (all_digits_no_space _ Hall) as Hns.
    unfold Library.publish_year, split.
    rewrite (last_item_split pre "" digits Hns Hne). now apply py_int_too_long.
  - intros blank H. unfold Library.publish_year. now rewrite H.
Qed.

Section FromApi.
Variable json_dump : list Library.Book -> string.
Variable openlibrary : string -> Library.http_outcome.



End FromApi.

(* ------------------------------------------------------------------ *)
(** ** Further properties of the movie agent *)

Section SortedStrings.

Lemma insert_sorted_perm x l : Permutation (Movie.insert_sorted x l) (x :: l).
Proof.
  induction l as [|y l IH]; simpl; [reflexivity |].
  destruct (String.leb x y); [reflexivity |].
  rewrite IH. apply perm_swap.
Qed.

Lemma sorted_perm l : Permutation (Movie.sorted l) l.
Proof.
  induction l as [|x l IH]; simpl; [reflexivity |].
  rewrite insert_sorted_perm. now constructor.
Qed.

Lemma leb_false_flip x y : String.leb x y = false -> String.leb y x = true.
Proof. intros H. destruct (String.leb_total x y); congruence. Qed.

Lemma insert_sorted_sorted x l :
  Sorted (fun a b => String.leb a b = true) l ->
  Sorted (fun a b => String.leb a b = true) (Movie.insert_sorted x l).
Proof.
  induction l as [|y l IH]; simpl; intros Hs.
  - constructor; constructor.
  - destruct (String.leb x y) eqn:E.
    + constructor; [assumption |]. constructor. assumption.
    + inversion Hs as [|? ? Hs' Hhd]; subst. constructor; [now apply IH |].
      destruct l as [|z l]; simpl.
      * constructor. now apply leb_false_flip.
      * destruct (String.leb x z); constructor.
        -- now apply leb_false_flip.
        -- now inversion Hhd.
Qed.

Lemma sorted_sorted l : Sorted (fun a b => String.leb a b = true) (Movie.sorted l).
Proof.
  induction l as [|x l IH]; simpl; [constructor | now apply insert_sorted_sorted].
Qed.

Lemma leb_distinct_lt a b : String.leb a b = true -> a <> b -> string_lt a b.
Proof.
  unfold string_lt, String.leb, String.ltb. intros H Hne.
  destruct (String.compare a b) eqn:E; try reflexivity; try discriminate.
  apply String.compare_eq_iff in E. contradiction.
Qed.

Lemma sorted_distinct_strict l :
  Sorted (fun a b => String.leb a b = true) l -> NoDup l -> Sorted string_lt l.
Proof.
  induction l as [|a l IH]; intros Hs Hnd; [constructor |].
  inversion Hs as [|? ? Hs' Hhd]; subst. inversion Hnd as [|? ? Hnot Hnd']; subst.
  constructor; [now apply IH |].
  destruct l as [|b l]; constructor. inversion Hhd; subst.
  apply leb_distinct_lt; [assumption |]. intros ->. apply Hnot. now left.
Qed.
End SortedStrings.

Section MovieQueries.
Variable json_dump : list Movie.Movie -> string.
Variable float_sum : list pyfloat -> pyfloat.
Variable float_div : pyfloat -> nat -> pyfloat.
Variable round2 : pyfloat -> pyfloat.

Lemma get_all_genres_perm self :
  Permutation (Movie.get_all_genres self)
              (nodup string_dec (map Movie.genre (Movie.movies self))).
Proof. unfold Movie.get_all_genres. apply sorted_perm. Qed.

Lemma get_all_genres_In self g :
  In g (Movie.get_all_genres self) <->
  exists m, In m (Movie.movies self) /\ Movie.genre m = g.
Proof.
  split.
  - intros H. apply (Permutation_in _ (get_all_genres_perm self)) in H.
    apply nodup_In, in_map_iff in H. destruct H as [m [Hg Hm]]. exists m. auto.
  - intros [m [Hm Hg]].
    apply (Permutation_in _ (Permutation_sym (get_all_genres_perm self))).
    apply nodup_In, in_map_iff. exists m. auto.
Qed.

(** X12. [get_all_genres] returns the genres of the collection, each
    one once, in strictly ascending order; and [search_by_genre] with
    any of them returns at least one movie. *)
Theorem get_all_genres_sorted_distinct :
  forall self,
    Sorted string_lt (Movie.get_all_genres self) /\
    NoDup (Movie.get_all_genres self) /\
    (forall g, In g (Movie.get_all_genres self) <->
               exists m, In m (Movie.movies self) /\ Movie.genre m = g) /\
    (forall g, In g (Movie.get_all_genres self) ->
               Movie.search_by_genre self g <> []).
Proof.
  intros self.
  assert (Hnd : NoDup (Movie.get_all_genres self)).
  { apply (Permutation_NoDup (Permutation_sym (get_all_genres_perm self))).
    apply NoDup_nodup. }
  split; [| split; [| split]].
  - apply sorted_distinct_strict; [apply sorted_sorted | exact Hnd].
  - exact Hnd.
  - apply get_all_genres_In.
  - intros g Hg. apply get_all_genres_In in Hg. destruct Hg as [m [Hm Hgm]].
    intros Hnil.
    assert (Hin : In m (Movie.search_by_genre self g)).
    { unfold Movie.search_by_genre. apply filter_In. split; [assumption |].
      apply String.eqb_eq. now rewrite Hgm. }
    now rewrite Hnil in Hin.
Qed.

(** X13. The statistics of the movie agent are consistent: the total is
    the number of movies, watched and unwatched add up to it, the number
    of genres is the length of [get_all_genres], never more than the
    total, and zero only for an empty collection. *)
Theorem movie_statistics_consistent :
  forall self,
    let stats := Movie.get_statistics float_sum float_div round2 self in
    Movie.stat_total stats = List.length (Movie.movies self) /\
    Movie.stat_watched stats =
      List.length (filter Movie.watched (Movie.movies self)) /\
    (Movie.stat_watched stats + Movie.stat_unwatched stats)%nat =
      Movie.stat_total stats /\
    Movie.stat_genres stats = List.length (Movie.get_all_genres self) /\
    (Movie.stat_genres stats <= Movie.stat_total stats)%nat /\
    (Movie.stat_genres stats = 0%nat <-> Movie.movies self = []).
Proof.
  intros self stats.
  assert (Hg : (List.length (Movie.get_all_genres self) <=
                List.length (Movie.movies self))%nat).
  { rewrite (Permutation_length (get_all_genres_perm self)).
    rewrite <- (length_map Movie.genre (Movie.movies self)).
    apply NoDup_incl_length; [apply NoDup_nodup |].
    intros g Hgin. now apply nodup_In in Hgin. }
  subst stats. unfold Movie.get_statistics.
  destruct (Movie.movies self) as [|m l] eqn:Hm.
  - repeat split; try reflexivity.
    unfold Movie.get_all_genres. now rewrite Hm.
  - cbv zeta. cbn [Movie.stat_total Movie.stat_watched Movie.stat_unwatched
                   Movie.stat_genres].
    pose proof (filter_length_le Movie.watched (m :: l)) as Hw.
    split; [reflexivity |]. split; [reflexivity |]. split; [lia |].
    split; [reflexivity |]. split; [exact Hg |].
    split; [| discriminate]. intros H0.
    assert (Hin : In (Movie.genre m) (Movie.get_all_genres self)).
    { apply get_all_genres_In. exists m. rewrite Hm. split; [now left | reflexivity]. }
    destruct (Movie.get_all_genres self); [contradiction | discriminate].
Qed.

Lemma delete_movie_movies self t w :
  Movie.movies (cinema_after (Movie.delete_movie json_dump self t w)) =
    kept t (Movie.movies self).
Proof.
  unfold cinema_after.
  destruct (title_match_dec t (Movie.movies self)) as [Hyes | Hno].
  - rewrite (delete_movie_match json_dump _ _ _ Hyes). cbv zeta.
    now destruct (Movie.save_movies json_dump _ w) as [[u | e] w'].
  - rewrite (delete_movie_no_match json_dump _ _ _ Hno). simpl.
    unfold kept. symmetry. apply filter_all. intros m Hm.
    apply negb_true_iff, same_title_false. now apply Hno.
Qed.

(** X14. [search_by_title] returns, in the order of the collection, the
    movies whose title contains the text, letter case apart: with the
    empty text every movie, and with any text every movie whose title
    equals it up to letter case, which are the movies [delete_movie]
    removes for that text. *)
Theorem search_by_title_finds :
  forall self t,
    (forall m, In m (Movie.search_by_title self t) <->
       In m (Movie.movies self) /\
       exists pre post, lower (Movie.title m) = (pre ++ lower t ++ post)%string) /\
    Movie.search_by_title self "" = Movie.movies self /\
    (forall m, In m (Movie.movies self) ->
               lower (Movie.title m) = lower t ->
               In m (Movie.search_by_title self t)) /\
    (forall w m, In m (Movie.movies self) ->
       ~ In m (Movie.movies (cinema_after (Movie.delete_movie json_dump self t w))) ->
       In m (Movie.search_by_title self t)).
Proof.
  intros self t.
  assert (Heq : forall m, In m (Movie.movies self) ->
                  lower (Movie.title m) = lower t ->
                  In m (Movie.search_by_title self t)).
  { intros m Hm Ht. unfold Movie.search_by_title. apply filter_In.
    split; [assumption |]. rewrite Ht. apply contains_refl. }
  split; [| split; [| split]].
  - intros m. unfold Movie.search_by_title. rewrite filter_In, contains_spec.
    reflexivity.
  - unfold Movie.search_by_title. apply filter_all. intros m _.
    apply contains_empty.
  - exact Heq.
  - intros w m Hm Hgone. rewrite delete_movie_movies in Hgone.
    apply Heq; [assumption |].
    destruct (string_dec (lower (Movie.title m)) (lower t)) as [E | E];
      [assumption |].
    exfalso. apply Hgone. unfold kept. apply filter_In. split; [assumption |].
    now apply negb_true_iff, same_title_false.
Qed.
End MovieQueries.

Section MovieMutations.
Variable json_dump : list Movie.Movie -> string.
Variable json_load : string -> option (list Movie.Movie).
Lemma can_persist_with_movies self ms w :
  can_persist (Movie.with_movies self ms) w <-> can_persist self w.
Proof. reflexivity. Qed.









End MovieMutations.

(* ------------------------------------------------------------------ *)
(** ** The two film catalogues *)





Section MovieCatalogue.
Variable json_dump : list Movie.Movie -> string.
Variable json_load : string -> option (list Movie.Movie).
Variable omdb_api_key : option string.
Variable ghibli_api : Movie.response (list Movie.Film).
Variable omdb_api : string -> string -> Movie.response Movie.OmdbData.
Variable py_float : string -> option pyfloat.
Variable float_div : pyfloat -> nat -> pyfloat.

Local Abbreviation fetch_ghibli_movie :=
  (Movie.fetch_ghibli_movie ghibli_api py_float float_div).
Local Abbreviation fetch_omdb_movie :=
  (Movie.fetch_omdb_movie omdb_api_key omdb_api py_float).
Local Abbreviation fetch_movie_from_api :=
  (Movie.fetch_movie_from_api omdb_api_key ghibli_api omdb_api py_float float_div).
Local Abbreviation add_movie_from_api :=
  (Movie.add_movie_from_api json_dump omdb_api_key ghibli_api omdb_api py_float
     float_div).






End MovieCatalogue.

(* ------------------------------------------------------------------ *)
(** ** The console program of the library *)






Section ConsoleFacts.
Variable P : Library.LibraryAgent -> Prop.












End ConsoleFacts.



Section ConsoleClaims.
Variable json_dump : list Library.Book -> string.
Variable float_sum : list pyfloat -> pyfloat.
Variable float_div : pyfloat -> nat -> pyfloat.
Variable round2 : pyfloat -> pyfloat.
Variable float_str : pyfloat -> string.
Variable openlibrary : string -> Library.http_outcome.
Variable py_float : string -> option pyfloat.













End ConsoleClaims.

Section ConsoleSteps.








Lemma update_ok {A}
    (method : Library.LibraryAgent -> M (A * Library.LibraryAgent)) s a self w :
  method (Main.library s) (Main.outside s) = (Ok (a, self), w) ->
  Main.update method s = (Ok a, Main.mkSession (Main.stdin s) self w).
Proof. intros H. unfold Main.update. now rewrite H. Qed.
End ConsoleSteps.

Section ConsoleProgram.
Variable json_dump : list Library.Book -> string.
Variable float_sum : list pyfloat -> pyfloat.
Variable float_div : pyfloat -> nat -> pyfloat.
Variable round2 : pyfloat -> pyfloat.
Variable float_str : pyfloat -> string.
Variable openlibrary : string -> Library.http_outcome.
Variable py_float : string -> option pyfloat.

Local Abbreviation turn :=
  (Main.turn json_dump float_sum float_div round2 float_str openlibrary py_float).
Local Abbreviation main_loop :=
  (Main.main_loop json_dump float_sum float_div round2 float_str openlibrary
     py_float).
Local Abbreviation dispatch :=
  (Main.dispatch json_dump float_sum float_div round2 float_str openlibrary
     py_float).



End ConsoleProgram.

Section ConsoleHandlers.
Variable json_dump : list Library.Book -> string.
Variable float_str : pyfloat -> string.
Variable openlibrary : string -> Library.http_outcome.
Variable py_float : string -> option pyfloat.




Lemma nonempty_false x : Main.nonempty x = false <-> x = "".
Proof. destruct x; simpl; split; congruence. Qed.






End ConsoleHandlers.

(* ------------------------------------------------------------------ *)
(** ** The further properties at sample inputs *)




Lemma ratings_stay_in_range_witness :
  Forall rating_in_range (Library.books library1) /\
  Forall rating_in_range
    (Library.books
       (agent_after (Library.rate_book sample_dump library1 2 (of_Z 3) world0)
                    library1)).
Proof.
  assert (H : Forall rating_in_range (Library.books library1)).
  { simpl. repeat constructor. }
  split; [exact H |].
  apply (ratings_stay_in_range sample_dump library1 H).
Defined.

Lemma restart_after_mutation_witness :
  fst (Library.init sample_load (Library.storage_path library_plain)
         (snd (Library.rate_book sample_dump library_plain 1 (of_Z 5) world0))) =
    Ok (agent_after (Library.rate_book sample_dump library_plain 1 (of_Z 5) world0)
                    library_plain).
Proof.
  destruct (restart_after_mutation sample_dump sample_load library_plain world0
              eq_refl) as (_ & _ & Hrate & _).
  apply (Hrate 1%Z (of_Z 5)).
  - vm_compute. reflexivity.
  - vm_compute. reflexivity.
Defined.


Lemma organize_groups_the_collection_witness :
  exists by_genre by_author,
    fst (Library.organize_by_genre library1 world0) = Ok by_genre /\
    fst (Library.organize_by_author library1 world0) = Ok by_author /\
    (exists group,
        In ("Essay", group) by_genre /\ In (sample_book 2 "Essay" None) group).
Proof.
  destruct (organize_groups_the_collection sample_float_sum sample_float_div
              sample_round2 library1 world0)
    as (by_genre & by_author & Hg & Ha & _ & _ & Hin & _).
  exists by_genre, by_author. split; [exact Hg |]. split; [exact Ha |].
  apply (Hin (sample_book 2 "Essay" None)). simpl. right. now left.
Defined.

Lemma publish_year_trailing_number_witness :
  Library.publish_year "June 1965" = Some (number_of_digits "1965") /\
  Library.publish_year "   " = None.
Proof.
  destruct publish_year_trailing_number as (Hdigits & _ & Hblank). split.
  - apply (Hdigits "June" "1965"); [reflexivity | vm_compute; lia].
  - apply Hblank. reflexivity.
Defined.


Lemma get_all_genres_sorted_distinct_witness :
  Movie.search_by_genre cinema1 "Animation" <> [].
Proof.
  destruct (get_all_genres_sorted_distinct cinema1) as (_ & _ & _ & Hsearch).
  apply Hsearch. vm_compute. now left.
Defined.

Lemma search_by_title_finds_witness :
  In (sample_movie "TOTORO" 8) (Movie.search_by_title cinema1 "totoro").
Proof.
  destruct (search_by_title_finds sample_movie_dump cinema1 "totoro")
    as (_ & _ & Heq & _).
  apply Heq.
  - simpl. right. right. now left.
  - reflexivity.
Defined.











(* ------------------------------------------------------------------ *)
(** ** Order among equal ratings *)





(* ------------------------------------------------------------------ *)
(** ** The readers of text at sample inputs *)

Example py_int_samples :
  py_int " 42 " = Some 42%Z /\ py_int "-1_000" = Some (-1000)%Z /\
  py_int "+7" = Some 7%Z /\ py_int "007" = Some 7%Z /\
  py_int "1__0" = None /\ py_int "_1" = None /\ py_int "1_" = None /\
  py_int "" = None /\ py_int "+" = None /\ py_int "12a" = None /\
  py_int "1 2" = None /\ py_int "- 5" = None /\
  py_int (String (ascii_of_nat 28) "5") = None /\
  strip (String (ascii_of_nat 28) "5") = "5".
Proof. repeat split; vm_compute; reflexivity. Qed.

Example split_samples :
  split "  June   1965 " = ["June"; "1965"] /\ split "" = [] /\
  split "   " = [] /\ last_item (split "c. 1965") = Some "1965".
Proof. repeat split; vm_compute; reflexivity. Qed.

Example contains_samples :
  contains "un" "dune" = true /\ contains "" "" = true /\
  contains "dune" "un" = false /\ contains "ne" "dune" = true.
Proof. repeat split; vm_compute; reflexivity. Qed.

Example strip_samples :
  strip "  a b  " = "a b" /\ strip "   " = "" /\ lower "Dune 2" = "dune 2" /\
  str_of_Z (-12) = "-12" /\ str_of_Z 0 = "0".
Proof. repeat split; vm_compute; reflexivity. Qed.

Example get_all_genres_sample :
  Movie.get_all_genres
    (Movie.mkAgent "data/movies.json" false
       [Movie.mkMovie "Up" "Family" (of_Z 8) 2009 false;
        Movie.mkMovie "Alien" "Horror" (of_Z 8) 1979 true;
        Movie.mkMovie "Coco" "Family" (of_Z 8) 2017 false;
        Movie.mkMovie "Heat" "Crime" (of_Z 8) 1995 false]) =
    ["Crime"; "Family"; "Horror"].
Proof. vm_compute. reflexivity. Qed.

Example organize_by_genre_sample :
  fst (Library.organize_by_genre
         (Library.mkAgent "data/books.json"
            [sample_book 1 "Fiction" None; sample_book 2 "Essay" None;
             sample_book 3 "Fiction" None]) world0) =
    Ok [("Fiction", [sample_book 1 "Fiction" None; sample_book 3 "Fiction" None]);
        ("Essay", [sample_book 2 "Essay" None])].
Proof. vm_compute. reflexivity. Qed.

Example console_session_sample :
  option_map (fun r => (fst r, Main.stdin (snd r),
                        map Library.status (Library.books (Main.library (snd r)))))
    (Main.main_loop sample_dump sample_float_sum sample_float_div sample_round2
       sample_float_str sample_openlibrary sample_py_float 10
       (session sample_lines library1 world0)) =
    Some (Ok tt, [], ["unread"; "read"]).
Proof. vm_compute. reflexivity. Qed.

(* ------------------------------------------------------------------ *)
(** ** The command-line program of the movie agent *)

Section CliFacts.




















End CliFacts.



Section CliProgram.
Variable json_dump : list Movie.Movie -> string.
Variable json_load : string -> option (list Movie.Movie).
Variable omdb_api_key : option string.
Variable ghibli_api : Movie.response (list Movie.Film).
Variable omdb_api : string -> string -> Movie.response Movie.OmdbData.
Variable py_float : string -> option pyfloat.
Variable float_sum : list pyfloat -> pyfloat.
Variable float_div : pyfloat -> nat -> pyfloat.
Variable round2 : pyfloat -> pyfloat.

Local Abbreviation add_movie_menu :=
  (Cli.add_movie_menu json_dump omdb_api_key ghibli_api omdb_api py_float float_div).
Local Abbreviation search_menu := (Cli.search_menu py_float).
Local Abbreviation manage_movies_menu := (Cli.manage_movies_menu json_dump).
Local Abbreviation show_statistics :=
  (Cli.show_statistics float_sum float_div round2).
Local Abbreviation turn :=
  (Cli.turn json_dump omdb_api_key ghibli_api omdb_api py_float float_sum
     float_div round2).
Local Abbreviation main_loop :=
  (Cli.main_loop json_dump omdb_api_key ghibli_api omdb_api py_float float_sum
     float_div round2).




End CliProgram.

Section CliTurns.
Variable json_dump : list Movie.Movie -> string.
Variable omdb_api_key : option string.
Variable ghibli_api : Movie.response (list Movie.Film).
Variable omdb_api : string -> string -> Movie.response Movie.OmdbData.
Variable py_float : string -> option pyfloat.
Variable float_sum : list pyfloat -> pyfloat.
Variable float_div : pyfloat -> nat -> pyfloat.
Variable round2 : pyfloat -> pyfloat.

Local Abbreviation add_movie_menu :=
  (Cli.add_movie_menu json_dump omdb_api_key ghibli_api omdb_api py_float float_div).
Local Abbreviation search_menu := (Cli.search_menu py_float).
Local Abbreviation manage_movies_menu := (Cli.manage_movies_menu json_dump).
Local Abbreviation show_statistics :=
  (Cli.show_statistics float_sum float_div round2).
Local Abbreviation turn :=
  (Cli.turn json_dump omdb_api_key ghibli_api omdb_api py_float float_sum
     float_div round2).
Local Abbreviation main_loop :=
  (Cli.main_loop json_dump omdb_api_key ghibli_api omdb_api py_float float_sum
     float_div round2).



Local Abbreviation dispatch :=
  (Cli.dispatch json_dump omdb_api_key ghibli_api omdb_api py_float float_sum
     float_div round2).








End CliTurns.


Section CliMenus.
Variable json_dump : list Movie.Movie -> string.
Variable omdb_api_key : option string.
Variable ghibli_api : Movie.response (list Movie.Film).
Variable omdb_api : string -> string -> Movie.response Movie.OmdbData.
Variable py_float : string -> option pyfloat.
Variable float_sum : list pyfloat -> pyfloat.
Variable float_div : pyfloat -> nat -> pyfloat.
Variable round2 : pyfloat -> pyfloat.

Local Abbreviation add_movie_menu :=
  (Cli.add_movie_menu json_dump omdb_api_key ghibli_api omdb_api py_float float_div).
Local Abbreviation manage_movies_menu := (Cli.manage_movies_menu json_dump).
Local Abbreviation fetch_movie_from_api :=
  (Movie.fetch_movie_from_api omdb_api_key ghibli_api omdb_api py_float float_div).
Local Abbreviation main_loop :=
  (Cli.main_loop json_dump omdb_api_key ghibli_api omdb_api py_float float_sum
     float_div round2).





End CliMenus.

Section CliMain.
Variable json_dump : list Movie.Movie -> string.
Variable json_load : string -> option (list Movie.Movie).
Variable omdb_api_key : option string.
Variable ghibli_api : Movie.response (list Movie.Film).
Variable omdb_api : string -> string -> Movie.response Movie.OmdbData.
Variable py_float : string -> option pyfloat.
Variable float_sum : list pyfloat -> pyfloat.
Variable float_div : pyfloat -> nat -> pyfloat.
Variable round2 : pyfloat -> pyfloat.

Local Abbreviation main_loop :=
  (Cli.main_loop json_dump omdb_api_key ghibli_api omdb_api py_float float_sum
     float_div round2).
Local Abbreviation main :=
  (Cli.main json_dump json_load omdb_api_key ghibli_api omdb_api py_float
     float_sum float_div round2).

End CliMain.

Section CliCatalogue.
Variable json_dump : list Movie.Movie -> string.
Variable omdb_api_key : option string.
Variable ghibli_api : Movie.response (list Movie.Film).
Variable omdb_api : string -> string -> Movie.response Movie.OmdbData.
Variable py_float : string -> option pyfloat.
Variable float_div : pyfloat -> nat -> pyfloat.

Local Abbreviation add_movie_menu :=
  (Cli.add_movie_menu json_dump omdb_api_key ghibli_api omdb_api py_float float_div).
Local Abbreviation fetch_movie_from_api :=
  (Movie.fetch_movie_from_api omdb_api_key ghibli_api omdb_api py_float float_div).
Local Abbreviation add_movie_from_api :=
  (Movie.add_movie_from_api json_dump omdb_api_key ghibli_api omdb_api py_float
     float_div).




End CliCatalogue.

(* ------------------------------------------------------------------ *)
(** ** The command-line program at sample inputs *)






Example cli_session_sample :
  option_map
    (fun r => (fst r, Cli.stdin (snd r),
               map Movie.title (Movie.movies (Cli.agent (snd r)))))
    (Cli.main_loop sample_movie_dump (Some "k") sample_ghibli_api sample_omdb_api
       sample_py_float sample_float_sum sample_float_div sample_round2 10
       (cli_session ["2"; "1"; "Heat"; "Crime"; "5"; "1995"; "y";
                     "4"; "2"; "totoro"; "y"; "3"; "1"; "e"; "6"; "left"]
                    cinema1 world0)) =
    Some (Ok tt, ["left"], ["Ponyo"; "Heat"]).
Proof. vm_compute. reflexivity. Qed.

Example cli_main_sample :
  option_map (fun r => (fst (fst r), snd (fst r), fs (snd r) "data/movies.json"))
    (Cli.main sample_movie_dump sample_movie_load None sample_ghibli_api
       sample_omdb_api sample_py_float sample_float_sum sample_float_div
       sample_round2 10 ["2"; "2"; "ponyo"] world0) =
    Some (Raise OtherError, [], Content "[]").
Proof. vm_compute. reflexivity. Qed.
